(** * Story blocks of the Timesketch API client

    A shallow embedding of [timesketch_api_client/story.py]: the block
    classes ([BaseBlock], [TextBlock], [ViewBlock]) and the [Story]
    resource, with the properties the specification states about them.

    Python data is embedded as follows.
    - JSON-like data (what [json.loads] yields and what [to_dict] builds)
      is the type [value]; a dict is an association list in insertion
      order, which is also the order [json.dumps] emits.
    - Any other Python object (a [view.View], for instance) is an
      instance carrying an attribute table; such an instance is truthy,
      as any instance of a class without [__bool__] or [__len__] is.
    - Numbers are integers ([Z]).
    - A raised exception is a value of [exn]; a method is a function
      from the story to a result and the story it leaves, so that what
      was mutated before a [raise] stays mutated. *)

From Stdlib Require Import ZArith List String Ascii DecimalString Bool Lia.
From Stdlib Require Import Permutation.
Import ListNotations.
Open Scope string_scope.
Open Scope list_scope.
Open Scope Z_scope.

#[local] Set Warnings "-register-all".

(** ** Python values *)

Inductive value : Type :=
| VNone
| VBool (b : bool)
| VInt (z : Z)
| VStr (s : string)
| VList (l : list value)
| VDict (d : list (string * value)).

(** A Python object as a block payload or a method argument: plain data,
    or an instance with its attributes. *)
Inductive pyobj : Type :=
| PVal (v : value)
| PInst (attrs : list (string * value)).

Inductive exn : Type :=
| ValueError (msg : string)
| TypeError (msg : string)
| IndexError (msg : string)
| KeyError (msg : string)
| AttributeError (msg : string)
| JSONDecodeError (msg : string).

Inductive result (A : Type) : Type :=
| Ok (a : A)
| Raise (e : exn).
Arguments Ok {A} a.
Arguments Raise {A} e.

Definition is_nil {A : Type} (l : list A) : bool :=
  match l with [] => true | _ :: _ => false end.

(** [bool(v)]: what [if v] and [not v] test. *)
Definition truthy (v : value) : bool :=
  match v with
  | VNone => false
  | VBool b => b
  | VInt z => negb (z =? 0)
  | VStr s => negb (s =? "")%string
  | VList l => negb (is_nil l)
  | VDict d => negb (is_nil d)
  end.

Definition obj_truthy (o : pyobj) : bool :=
  match o with
  | PVal v => truthy v
  | PInst _ => true
  end.

(** [type(v).__name__], as error messages print it. *)
Definition type_name (v : value) : string :=
  match v with
  | VNone => "NoneType"
  | VBool _ => "bool"
  | VInt _ => "int"
  | VStr _ => "str"
  | VList _ => "list"
  | VDict _ => "dict"
  end.

(** ** Dicts as association lists *)

Fixpoint assoc {A : Type} (k : string) (d : list (string * A)) : option A :=
  match d with
  | [] => None
  | (k', v) :: d' => if (k =? k')%string then Some v else assoc k d'
  end.

(** [d[k] = v]: overwrite in place, or append a new key. *)
Fixpoint dict_set {A : Type} (k : string) (v : A) (d : list (string * A))
  : list (string * A) :=
  match d with
  | [] => [(k, v)]
  | (k', v') :: d' =>
      if (k =? k')%string then (k, v) :: d' else (k', v') :: dict_set k v d'
  end.

(** [x.get(k, dflt)]; only a dict has a [get] method. *)
Definition py_get (x : value) (k : string) (dflt : value) : result value :=
  match x with
  | VDict d => Ok (match assoc k d with Some v => v | None => dflt end)
  | _ => Raise (AttributeError "get")
  end.

(** [hasattr(o, k)] for an attribute name [k] that no built-in data type
    has ([id] and [name] are the only ones the module asks for). *)
Definition hasattr (o : pyobj) (k : string) : bool :=
  match o with
  | PVal _ => false
  | PInst attrs => match assoc k attrs with Some _ => true | None => false end
  end.

(** [o.k], used only after [hasattr(o, k)]. *)
Definition getattr (o : pyobj) (k : string) : result value :=
  match o with
  | PVal _ => Raise (AttributeError k)
  | PInst attrs =>
      match assoc k attrs with
      | Some v => Ok v
      | None => Raise (AttributeError k)
      end
  end.

(** [a == b] on data.  Lists compare element-wise, dicts key by key
    whatever the order of insertion, and [True == 1]. *)
Fixpoint py_eq (a b : value) {struct a} : bool :=
  match a, b with
  | VNone, VNone => true
  | VBool x, VBool y => Bool.eqb x y
  | VBool x, VInt y => (if x then 1 else 0) =? y
  | VInt x, VBool y => x =? (if y then 1 else 0)
  | VInt x, VInt y => x =? y
  | VStr x, VStr y => (x =? y)%string
  | VList xs, VList ys =>
      (fix all2 (xs ys : list value) {struct xs} : bool :=
         match xs, ys with
         | [], [] => true
         | x :: xs', y :: ys' => py_eq x y && all2 xs' ys'
         | _, _ => false
         end) xs ys
  | VDict xs, VDict ys =>
      (Nat.eqb (List.length xs) (List.length ys))
      && (fix sub (xs : list (string * value)) {struct xs} : bool :=
            match xs with
            | [] => true
            | p :: xs' =>
                match assoc (fst p) ys with
                | Some w => py_eq (snd p) w
                | None => false
                end && sub xs'
            end) xs
  | _, _ => false
  end.

(** ** Lists indexed the Python way *)

(** [l.pop(i)]: a negative [i] counts from the end; out of range is an
    [IndexError] ([None] here). *)
Definition list_pop {A : Type} (l : list A) (i : Z) : option (A * list A) :=
  let n := Z.of_nat (List.length l) in
  let j := if i <? 0 then i + n else i in
  if (j <? 0) || (n <=? j) then None
  else
    match nth_error l (Z.to_nat j) with
    | Some x => Some (x, firstn (Z.to_nat j) l ++ skipn (S (Z.to_nat j)) l)
    | None => None
    end.

(** The message of the [IndexError] of a failed [l.pop(i)]. *)
Definition pop_error {A : Type} (l : list A) : string :=
  if is_nil l then "pop from empty list" else "pop index out of range".

(** [l.insert(i, x)]: a negative [i] counts from the end, and an index
    beyond either end is clamped to it. *)
Definition list_insert {A : Type} (l : list A) (i : Z) (x : A) : list A :=
  let n := Z.of_nat (List.length l) in
  let j := if i <? 0 then Z.max 0 (i + n) else Z.min i n in
  firstn (Z.to_nat j) l ++ x :: skipn (Z.to_nat j) l.

(** ** Blocks *)

(** The two concrete block classes.  [index] and [_data] are the fields
    [BaseBlock.__init__] sets; a [ViewBlock] adds [_view_id] and
    [_view_name].  The back-reference [_story] is not stored: the methods
    that delegate to the story take it as their state. *)
Inductive Block : Type :=
| TextBlock (index : Z) (_data : pyobj)
| ViewBlock (index : Z) (_data : pyobj) (_view_id _view_name : value).

Inductive block_type : Type := text | view.

Definition TYPE (b : Block) : block_type :=
  match b with
  | TextBlock _ _ => text
  | ViewBlock _ _ _ _ => view
  end.

Definition index (b : Block) : Z :=
  match b with
  | TextBlock i _ => i
  | ViewBlock i _ _ _ => i
  end.

Definition _data (b : Block) : pyobj :=
  match b with
  | TextBlock _ d => d
  | ViewBlock _ d _ _ => d
  end.

(** [TextBlock(story, index)] and [ViewBlock(story, index)]. *)
Definition new_TextBlock (i : Z) : Block := TextBlock i (PVal VNone).
Definition new_ViewBlock (i : Z) : Block :=
  ViewBlock i (PVal VNone) (VInt 0) (VStr "").

(** [BaseBlock._get_base] *)
Definition _get_base : list (string * value) :=
  [ ("componentName", VStr "");
    ("componentProps", VDict []);
    ("content", VStr "");
    ("edit", VBool false);
    ("showPanel", VBool false);
    ("isActive", VBool false) ].

(** [BaseBlock.feed] *)
Definition feed (b : Block) (data : pyobj) : Block :=
  match b with
  | TextBlock i _ => TextBlock i data
  | ViewBlock i _ vid vname => ViewBlock i data vid vname
  end.

(** [BaseBlock.reset] *)
Definition reset (b : Block) : Block := feed b (PVal VNone).

(** [ViewBlock.view_id] and [ViewBlock.view_name] *)
Definition view_id (b : Block) : result value :=
  match b with
  | ViewBlock _ d vid _ =>
      if obj_truthy d && hasattr d "id" then getattr d "id" else Ok vid
  | TextBlock _ _ => Raise (AttributeError "view_id")
  end.

Definition view_name (b : Block) : result value :=
  match b with
  | ViewBlock _ d _ vname =>
      if obj_truthy d && hasattr d "name" then getattr d "name" else Ok vname
  | TextBlock _ _ => Raise (AttributeError "view_name")
  end.

(** [TextBlock.text] *)
Definition block_text (b : Block) : pyobj :=
  if obj_truthy (_data b) then _data b else PVal (VStr "").

(** [TextBlock.from_dict] and [ViewBlock.from_dict] *)
Definition from_dict (b : Block) (data_dict : value) : result Block :=
  match b with
  | TextBlock _ _ =>
      match py_get data_dict "content" (VStr "") with
      | Ok t => Ok (feed b (PVal t))
      | Raise e => Raise e
      end
  | ViewBlock i d _ _ =>
      match py_get data_dict "componentProps" (VDict []) with
      | Raise e => Raise e
      | Ok props =>
          match py_get props "view" VNone with
          | Raise e => Raise e
          | Ok view_dict =>
              if negb (truthy view_dict) then
                Raise (TypeError "View not defined")
              else
                match py_get view_dict "id" (VInt 0) with
                | Raise e => Raise e
                | Ok vid =>
                    match py_get view_dict "name" (VStr "") with
                    | Raise e => Raise e
                    | Ok vname => Ok (ViewBlock i d vid vname)
                    end
                end
          end
      end
  end.

(** [TextBlock.to_dict] and [ViewBlock.to_dict] *)
Definition to_dict (b : Block) : result value :=
  match b with
  | TextBlock _ d =>
      if negb (obj_truthy d) then
        Raise (ValueError "No data has been fed to the block.")
      else
        match d with (* isinstance(self._data, str) *)
        | PVal (VStr s) => Ok (VDict (dict_set "content" (VStr s) _get_base))
        | _ => Raise (TypeError "Data to a text block needs to be a string.")
        end
  | ViewBlock _ d _ _ =>
      if negb (obj_truthy d) then
        Raise (ValueError "No data has been fed to the block.")
      else if negb (hasattr d "id") then
        Raise (TypeError "View object is not correctly formed.")
      else if negb (hasattr d "name") then
        Raise (TypeError "View object is not correctly formed.")
      else
        match getattr d "id", getattr d "name" with
        | Ok vid, Ok vname =>
            let view_block := dict_set "componentName" (VStr "TsViewEventList") _get_base in
            let props :=
              match assoc "componentProps" view_block with
              | Some (VDict p) => p
              | _ => []
              end in
            Ok (VDict (dict_set "componentProps"
                         (VDict (dict_set "view"
                                   (VDict [("id", vid); ("name", vname)]) props))
                         view_block))
        | Raise e, _ => Raise e
        | _, Raise e => Raise e
        end
  end.

(** The [data] and [json] properties are both [to_dict()]. *)
Definition data (b : Block) : result value := to_dict b.

(** Modelled from the spec: [view.View(view_id, view_name, sketch_id, api)]
    is declared in the [view] module, which is not part of these sources.
    The spec describes a view reference as an object with an identifier
    and a name; the instance built here has exactly these two attributes. *)
Definition View (vid vname : value) (sketch_id : Z) : pyobj :=
  PInst [("id", vid); ("name", vname)].

(** ** The story *)

(** A method of the story: it reads and updates the story and either
    returns or raises. *)
Definition M (S A : Type) : Type := S -> result A * S.

Definition ret {S A : Type} (a : A) : M S A := fun st => (Ok a, st).

Definition raise {S A : Type} (e : exn) : M S A := fun st => (Raise e, st).

Definition bind {S A B : Type} (m : M S A) (k : A -> M S B) : M S B :=
  fun st =>
    match m st with
    | (Ok a, st') => k a st'
    | (Raise e, st') => (Raise e, st')
    end.

(** A call that cannot touch the story but may raise. *)
Definition lift {S A : Type} (r : result A) : M S A := fun st => (r, st).

Declare Scope py_scope.
Delimit Scope py_scope with py.
Notation "x <- m ;; k" := (bind m (fun x => k))
  (at level 61, m at next level, right associativity) : py_scope.
Notation "m ;;; k" := (bind m (fun _ => k))
  (at level 61, right associativity) : py_scope.

(** [[f(x) for x in l]]: stops at the first call that raises. *)
Fixpoint map_result {A B : Type} (f : A -> result B) (l : list A)
  : result (list B) :=
  match l with
  | [] => Ok []
  | x :: l' =>
      match f x with
      | Raise e => Raise e
      | Ok y =>
          match map_result f l' with
          | Raise e => Raise e
          | Ok ys => Ok (y :: ys)
          end
      end
  end.

(** [objects[0]] for a truthy [objects]. *)
Definition py_first (objects : value) : result value :=
  match objects with
  | VList (x :: _) => Ok x
  | VStr (String c _) => Ok (VStr (String c EmptyString))
  | VDict _ => Raise (KeyError "0")
  | VList [] | VStr EmptyString => Raise (IndexError "index out of range")
  | _ => Raise (TypeError "object is not subscriptable")
  end.

(** [for x in v]: the items the loop visits. *)
Fixpoint chars (s : string) : list value :=
  match s with
  | EmptyString => []
  | String c s' => VStr (String c EmptyString) :: chars s'
  end.

Definition py_iter (v : value) : result (list value) :=
  match v with
  | VList l => Ok l
  | VDict d => Ok (map (fun p => VStr (fst p)) d)
  | VStr s => Ok (chars s)
  | _ => Raise (TypeError "object is not iterable")
  end.

(** What the module imports and does not define:
    [definitions.HTTP_STATUS_CODE_20X]; [json.loads] on a string and
    [json.dumps]; and the remote service together with the cache of the
    resource layer, where [lazyload_data(refresh_cache)] of
    [resource.BaseResource] returns the story data and
    [api.session.post(uri, json=data)] on the story's resource URI
    returns the status code of the response. *)
Class Imports : Type := {
  HTTP_STATUS_CODE_20X : list Z;
  json_loads : string -> result value;
  json_dumps : value -> string;
  Server : Type;
  lazyload_data : bool -> Server -> value * Server;
  session_post : value -> Server -> Z * Server
}.

Section Story.

Context {imports : Imports}.

(** The fields of a [Story] that its methods read or write, the
    service it talks to, and the bodies it has POSTed so far (newest
    first). *)
Record Story : Type := mkStory {
  _title : value;
  _blocks : list Block;
  sketch_id : Z;
  server : Server;
  posted : list value
}.

Definition set_title (t : value) : M Story unit :=
  fun st => (Ok tt, mkStory t (_blocks st) (sketch_id st) (server st) (posted st)).

Definition set_blocks (bs : list Block) : M Story unit :=
  fun st => (Ok tt, mkStory (_title st) bs (sketch_id st) (server st) (posted st)).

Definition get_blocks : M Story (list Block) := fun st => (Ok (_blocks st), st).

Definition get_title : M Story value := fun st => (Ok (_title st), st).

Definition get_sketch_id : M Story Z := fun st => (Ok (sketch_id st), st).

Definition do_lazyload (refresh_cache : bool) : M Story value :=
  fun st =>
    let (d, srv) := lazyload_data refresh_cache (server st) in
    (Ok d, mkStory (_title st) (_blocks st) (sketch_id st) srv (posted st)).

Definition do_post (body : value) : M Story Z :=
  fun st =>
    let (code, srv) := session_post body (server st) in
    (Ok code, mkStory (_title st) (_blocks st) (sketch_id st) srv
                (body :: posted st)).

Definition json_loads_obj (content : value) : result value :=
  match content with
  | VStr s => json_loads s
  | _ =>
      Raise (TypeError ("the JSON object must be str, bytes or bytearray, not "
                        ++ type_name content)%string)
  end.

(** One turn of the loop of [Story.blocks]. *)
Definition load_block (content_block : value) (index : Z) : M Story unit :=
  (c <- lift (py_get content_block "content" VNone) ;;
   block <-
     (if truthy c then
        lift (from_dict (new_TextBlock index) content_block)
      else
        block <- lift (from_dict (new_ViewBlock index) content_block) ;;
        vid <- lift (view_id block) ;;
        vname <- lift (view_name block) ;;
        sid <- get_sketch_id ;;
        ret (feed block (View vid vname sid))) ;;
   bs <- get_blocks ;;
   set_blocks (bs ++ [block]))%py.

Fixpoint load_blocks (l : list value) (index : Z) : M Story unit :=
  match l with
  | [] => ret tt
  | content_block :: l' =>
      (load_block content_block index ;;; load_blocks l' (index + 1))%py
  end.

(** [Story.blocks] *)
Definition blocks : M Story (list Block) :=
  (bs <- get_blocks ;;
   (if is_nil bs then
      story_data <- do_lazyload false ;;
      objects <- lift (py_get story_data "objects" VNone) ;;
      content <-
        (if truthy objects then
           o <- lift (py_first objects) ;;
           lift (py_get o "content" (VList []))
         else ret (VStr "")) ;;
      decoded <- lift (json_loads_obj content) ;;
      items <- lift (py_iter decoded) ;;
      load_blocks items 0
    else ret tt) ;;;
   get_blocks)%py.

(** [Story.title] *)
Definition title : M Story value :=
  (t0 <- get_title ;;
   (if negb (truthy t0) then
      story <- do_lazyload false ;;
      objects <- lift (py_get story "objects" VNone) ;;
      if truthy objects then
        o <- lift (py_first objects) ;;
        t <- lift (py_get o "title" (VStr "No Title")) ;;
        set_title t
      else ret tt
    else ret tt) ;;;
   get_title)%py.

(** [Story.size] and [Story.__len__] *)
Definition size (st : Story) : Z := Z.of_nat (List.length (_blocks st)).

(** [Story._commit] *)
Definition _commit : M Story value :=
  (bs <- get_blocks ;;
   content_list <- lift (map_result to_dict bs) ;;
   let content := json_dumps (VList content_list) in
   t <- title ;;
   code <- do_post (VDict [("title", t); ("content", VStr content)]) ;;
   ret (VBool (existsb (Z.eqb code) HTTP_STATUS_CODE_20X)))%py.

(** [Story.refresh] *)
Definition refresh : M Story unit :=
  (set_title (VStr "") ;;;
   set_blocks [] ;;;
   do_lazyload true ;;;
   blocks ;;;
   ret tt)%py.

(** [Story._add_block]: the method has no [return] statement, so the
    call evaluates to [None]. *)
Definition _add_block (block : Block) (index : Z) : M Story value :=
  (bs <- get_blocks ;;
   set_blocks (list_insert bs index block) ;;;
   _commit ;;;
   refresh ;;;
   ret VNone)%py.

(** [Story.add_text] *)
Definition add_text (text_arg : pyobj) (index : Z) : M Story value :=
  (bs <- get_blocks ;;
   let index := if index =? -1 then Z.of_nat (List.length bs) else index in
   let text_block := feed (new_TextBlock index) text_arg in
   _add_block text_block index)%py.

(** [Story.add_view] *)
Definition add_view (view_obj : pyobj) (index : Z) : M Story value :=
  (if negb (hasattr view_obj "id") then
     raise (TypeError "View object is not correctly formed.")
   else if negb (hasattr view_obj "name") then
     raise (TypeError "View object is not correctly formed.")
   else
     bs <- get_blocks ;;
     let index := if index =? -1 then Z.of_nat (List.length bs) else index in
     let view_block := feed (new_ViewBlock index) view_obj in
     _add_block view_block index)%py.

(** [Story.move_to] *)
Definition move_to (block : Block) (new_index : Z) : M Story value :=
  (if new_index <? 0 then ret VNone
   else
     let old_index := index block in
     bs <- get_blocks ;;
     match list_pop bs old_index with
     | None => raise (IndexError (pop_error bs))
     | Some (old_block, rest) =>
         set_blocks rest ;;;
         d_old <- lift (data old_block) ;;
         d_new <- lift (data block) ;;
         if negb (py_eq d_old d_new) then
           raise (ValueError "Block is not correctly set.")
         else
           bs' <- get_blocks ;;
           set_blocks (list_insert bs' new_index block) ;;;
           _commit ;;;
           ret VNone
     end)%py.

(** [Story.remove_block] *)
Definition remove_block (index : Z) : M Story value :=
  (bs <- get_blocks ;;
   match list_pop bs index with
   | None => raise (IndexError (pop_error bs))
   | Some (_, rest) =>
       set_blocks rest ;;;
       _commit ;;;
       refresh ;;;
       ret VNone
   end)%py.

(** [BaseBlock.delete], [BaseBlock.move_down] and [BaseBlock.move_up] *)
Definition block_delete (b : Block) : M Story value := remove_block (index b).
Definition move_down (b : Block) : M Story value := move_to b (index b + 1).
Definition move_up (b : Block) : M Story value := move_to b (index b - 1).

End Story.

(** ** A concrete service

    A small instance of what the module imports, to run the methods on:
    an encoder that writes JSON text, a decoder that recognises the
    encodings of a given list of documents, and a service that answers
    every POST with one status code and stores the story it is sent when
    that code is a success. *)
Module Demo.

Definition quote : string := String (Ascii.ascii_of_nat 34) EmptyString.

Fixpoint dumps (v : value) : string :=
  match v with
  | VNone => "null"
  | VBool true => "true"
  | VBool false => "false"
  | VInt z => NilZero.string_of_int (Z.to_int z)
  | VStr s => quote ++ s ++ quote
  | VList l =>
      "[" ++
      (fix items (l : list value) : string :=
         match l with
         | [] => ""
         | x :: l' =>
             dumps x ++ match l' with [] => "" | _ => ", " ++ items l' end
         end) l
      ++ "]"
  | VDict d =>
      "{" ++
      (fix items (d : list (string * value)) : string :=
         match d with
         | [] => ""
         | p :: d' =>
             quote ++ fst p ++ quote ++ ": " ++ dumps (snd p)
             ++ match d' with [] => "" | _ => ", " ++ items d' end
         end) d
      ++ "}"
  end%string.

Definition loads (docs : list value) (s : string) : result value :=
  match find (fun v => (dumps v =? s)%string) docs with
  | Some v => Ok v
  | None => Raise (JSONDecodeError "Expecting value")
  end.

Definition status_20x : list Z := map Z.of_nat (seq 200 100).

Record service : Type := mkService {
  objects : list value;
  status : Z
}.

Definition lazyload (refresh_cache : bool) (s : service) : value * service :=
  (VDict [("objects", VList (objects s))], s).

Definition post (body : value) (s : service) : Z * service :=
  (status s,
   if existsb (Z.eqb (status s)) status_20x
   then mkService [body] (status s) else s).

Definition imports (docs : list value) : Imports :=
  {| HTTP_STATUS_CODE_20X := status_20x;
     json_loads := loads docs;
     json_dumps := dumps;
     Server := service;
     lazyload_data := lazyload;
     session_post := post |}.

(** Blocks and stories to run the methods on. *)
Definition text_a : Block := feed (new_TextBlock 0) (PVal (VStr "a")).
Definition text_b : Block := feed (new_TextBlock 1) (PVal (VStr "b")).
Definition view_v : Block :=
  feed (new_ViewBlock 1) (View (VInt 7) (VStr "v") 1).

Definition repr (b : Block) : value :=
  match to_dict b with Ok d => d | Raise _ => VNone end.

(** The block lists the decoder recognises. *)
Definition docs : list value :=
  [ VList [];
    VList [repr text_a];
    VList [repr text_a; repr text_b];
    VList [repr text_b; repr text_a];
    VList [repr text_a; repr view_v; repr text_b];
    VList [repr (feed (new_TextBlock 0) (PVal (VStr "hello")))];
    VList [repr view_v];
    VList [repr text_b] ].

#[local] Instance demo : Imports := imports docs.

(** A story object just constructed, for a story that the service
    holds with title [t] and raw blocks [raw], and that answers every
    POST with [code]. *)
Definition fresh_story (t : value) (raw : list value) (code : Z) : Story :=
  mkStory (VStr "") [] 1
    (mkService [VDict [("title", t); ("content", VStr (dumps (VList raw)))]]
       code)
    [].

(** A story object just constructed, for a story whose object on the
    service has no [title] key. *)
Definition untitled_story : Story :=
  mkStory (VStr "") [] 1
    (mkService [VDict [("content", VStr (dumps (VList [])))]] 200) [].

(** A story object just constructed, for a story of which the service
    returns no object. *)
Definition unknown_story : Story :=
  mkStory (VStr "") [] 1 (mkService [] 200) [].

(** A story object with its title and blocks loaded, in step with the
    service. *)
Definition loaded_story (t : value) (bs : list Block) (code : Z) : Story :=
  mkStory t bs 1
    (mkService
       [VDict [("title", t); ("content", VStr (dumps (VList (map repr bs))))]]
       code)
    [].

(** A block object kept from an earlier load: it says it sits at
    position 0 and holds a text that is no longer there. *)
Definition stale : Block := feed (new_TextBlock 0) (PVal (VStr "old")).

End Demo.

(** ** Properties as the specification words them *)

(** A block [b] survives the round trip through a fresh block [fresh] of
    its kind: whatever [to_dict] produced is accepted by [from_dict] and
    encoded again to the same representation. *)
Definition round_trips (fresh b : Block) : Prop :=
  forall d, to_dict b = Ok d ->
    exists b', from_dict fresh d = Ok b' /\ to_dict b' = Ok d.

(** Every block's [index] is its position in the sequence. *)
Fixpoint indices_from (i : Z) (bs : list Block) : bool :=
  match bs with
  | [] => true
  | b :: bs' => (index b =? i) && indices_from (i + 1) bs'
  end.

Definition indices_ok (bs : list Block) : bool := indices_from 0 bs.

(** The error [move_to] raises at its consistency guard. *)
Definition is_mismatch (e : exn) : bool :=
  match e with
  | ValueError m => (m =? "Block is not correctly set.")%string
  | _ => false
  end.

(** Decoding of the raw block list, following the words of the
    specification: an entry with a non-empty [content] field is a text
    block holding that content; any other entry is a view block whose
    view reference, read from [componentProps.view], is resolved to a
    view object. *)
Definition field (x : value) (k : string) (dflt : value) : value :=
  match x with
  | VDict d => match assoc k d with Some v => v | None => dflt end
  | _ => dflt
  end.

Definition decode_entry_spec (sid i : Z) (e : value) : Block :=
  let content := field e "content" VNone in
  if truthy content then TextBlock i (PVal content)
  else
    let view_ref := field (field e "componentProps" VNone) "view" VNone in
    let vid := field view_ref "id" (VInt 0) in
    let vname := field view_ref "name" (VStr "") in
    ViewBlock i (View vid vname sid) vid vname.

Fixpoint decode_from_spec (sid i : Z) (l : list value) : list Block :=
  match l with
  | [] => []
  | e :: l' => decode_entry_spec sid i e :: decode_from_spec sid (i + 1) l'
  end.

(** The entries the wire format allows: a dict with a non-empty
    [content], or with a [view] dict under [componentProps]. *)
Definition wire_entry (e : value) : bool :=
  match e with
  | VDict _ =>
      truthy (field e "content" VNone)
      || match field e "componentProps" VNone with
         | VDict props =>
             match assoc "view" props with
             | Some (VDict (_ :: _)) => true
             | _ => false
             end
         | _ => false
         end
  | _ => false
  end.

(** The title accessor as the specification words it: on a story whose
    title is not loaded yet, the accessor returns ["No Title"] exactly
    when the fetched object list is non-empty and its first object has
    no [title] key. *)
Definition first_lacks_title (objs : list value) : Prop :=
  exists o rest, objs = VDict o :: rest /\ assoc "title" o = None.

Definition title_default_claim {imports : Imports} (st : Story) : Prop :=
  _title st = VStr "" ->
  forall data srv objs,
    lazyload_data false (server st) = (data, srv) ->
    py_get data "objects" VNone = Ok (VList objs) ->
    (fst (title st) = Ok (VStr "No Title") <-> first_lacks_title objs).

(** ** The rest of the module *)

(** A payload that a block of its kind encodes: a non-empty string for
    a text block, an instance with an [id] and a [name] for a view
    block. *)
Definition valid_payload (b : Block) : bool :=
  match b with
  | TextBlock _ (PVal (VStr s)) => negb (s =? "")%string
  | TextBlock _ _ => false
  | ViewBlock _ o _ _ => obj_truthy o && hasattr o "id" && hasattr o "name"
  end.




(** [Story.content] *)
Definition content {imports : Imports} : M Story value :=
  (bs <- blocks ;;
   content_list <- lift (map_result to_dict bs) ;;
   ret (VStr (json_dumps (VList content_list))))%py.

(** The body [_commit] posts for a title and the representations of the
    blocks. *)
Definition commit_body {imports : Imports} (t : value) (reprs : list value)
  : value :=
  VDict [("title", t); ("content", VStr (json_dumps (VList reprs)))].

Definition newline : string := String (Ascii.ascii_of_nat 10) EmptyString.

(** ["\n".join(string_list)]: every item has to be a string. *)
Fixpoint str_items (l : list pyobj) : result (list string) :=
  match l with
  | [] => Ok []
  | PVal (VStr s) :: l' =>
      match str_items l' with
      | Ok ss => Ok (s :: ss)
      | Raise e => Raise e
      end
  | _ :: _ => Raise (TypeError "sequence item: expected str instance")
  end.

Definition join_lines (l : list pyobj) : result string :=
  match str_items l with
  | Ok ss => Ok (String.concat newline ss)
  | Raise e => Raise e
  end.

Section Rendering.

Context {imports : Imports}.

(** [self._sketch.explore(view=view, as_pandas=True).to_string(index=False)]:
    the sketch and the data frame are not defined in this module; the
    call queries the service and yields the text of the table. *)
Variable explore_to_string : pyobj -> Server -> string * Server.

Definition do_explore (view_obj : pyobj) : M Story string :=
  fun st =>
    let (s, srv) := explore_to_string view_obj (server st) in
    (Ok s, mkStory (_title st) (_blocks st) (sketch_id st) srv (posted st)).

(** The loop of [Story.to_string]. *)
Fixpoint render (bs : list Block) : M Story (list pyobj) :=
  match bs with
  | [] => ret []
  | b :: bs' =>
      (item <-
         match b with
         | TextBlock _ _ => ret (block_text b)
         | ViewBlock _ d _ _ =>
             s <- do_explore d ;; ret (PVal (VStr s))
         end ;;
       items <- render bs' ;;
       ret (item :: items))%py
  end.

(** [Story.to_string] *)
Definition to_string : M Story string :=
  (refresh ;;;
   bs <- blocks ;;
   string_list <- render bs ;;
   lift (join_lines string_list))%py.

End Rendering.

(** Further stories to run the methods on. *)
Module Cases.

(** A raw list whose second entry has neither a content nor a view. *)
Definition broken_raw : list value := [Demo.repr Demo.text_a; VDict _get_base].

Definition broken_imports : Imports := Demo.imports [VList broken_raw].

Definition broken_story : @Story broken_imports :=
  @mkStory broken_imports (VStr "") [] 1
    (Demo.mkService
       [VDict [("title", VStr "T");
               ("content", VStr (Demo.dumps (VList broken_raw)))]] 200)
    [].

(** A story whose object on the service has no [content] key. *)
Definition no_content_story : @Story Demo.demo :=
  @mkStory Demo.demo (VStr "") [] 1
    (Demo.mkService [VDict [("title", VStr "T")]] 200) [].

(** A loaded story of two text blocks. *)
Definition two_texts : @Story Demo.demo :=
  Demo.loaded_story (VStr "T") [Demo.text_a; Demo.text_b] 200.

(** A loaded story without blocks. *)
Definition no_blocks : @Story Demo.demo :=
  Demo.loaded_story (VStr "T") [] 200.

(** A loaded story whose second block was never fed. *)
Definition unfed_second : @Story Demo.demo :=
  Demo.loaded_story (VStr "T") [Demo.text_a; new_ViewBlock 1] 200.


(** A sketch whose views have no events. *)
Definition no_events (view_obj : pyobj) (srv : Demo.service)
  : string * Demo.service := (EmptyString, srv).

End Cases.

(** * Theorems *)

(** ** Blocks *)

Lemma str_truthy (s : string) : s <> "" -> truthy (VStr s) = true.
Proof.
  intros Hs. simpl. destruct (String.eqb_spec s ""); [contradiction | reflexivity].
Qed.

Lemma to_dict_text_inv (i : Z) (o : pyobj) (d : value) :
  to_dict (TextBlock i o) = Ok d ->
  exists s, o = PVal (VStr s) /\ s <> ""
            /\ d = VDict (dict_set "content" (VStr s) _get_base).
Proof.
  destruct o as [v|attrs]; simpl.
  - destruct (truthy v) eqn:Ht; simpl; [|discriminate].
    destruct v; try discriminate.
    intros H. injection H as <-. exists s. repeat split.
    intros ->. discriminate.
  - discriminate.
Qed.

Lemma to_dict_view_inv (i : Z) (o : pyobj) (vi vn d : value) :
  to_dict (ViewBlock i o vi vn) = Ok d ->
  exists vid vname,
    hasattr o "id" = true /\ hasattr o "name" = true
    /\ getattr o "id" = Ok vid /\ getattr o "name" = Ok vname
    /\ d = VDict [ ("componentName", VStr "TsViewEventList");
                   ("componentProps",
                    VDict [("view", VDict [("id", vid); ("name", vname)])]);
                   ("content", VStr "");
                   ("edit", VBool false);
                   ("showPanel", VBool false);
                   ("isActive", VBool false) ].
Proof.
  unfold to_dict.
  destruct (obj_truthy o); simpl; [|discriminate].
  destruct (hasattr o "id") eqn:Hid; simpl; [|discriminate].
  destruct (hasattr o "name") eqn:Hname; simpl; [|discriminate].
  destruct (getattr o "id") as [vid|e] eqn:Gid; [|discriminate].
  destruct (getattr o "name") as [vname|e] eqn:Gname; [|discriminate].
  intros H. injection H as <-. exists vid, vname. repeat split.
Qed.

(** C7.  For every non-empty string [s], a text block fed with [s]
    encodes, and the [content] field of the dict [to_dict] returns is
    [s]. *)
Theorem text_feed_to_dict_content (i : Z) (d0 : pyobj) (s : string) :
  s <> "" ->
  exists d,
    to_dict (feed (TextBlock i d0) (PVal (VStr s))) = Ok d
    /\ py_get d "content" VNone = Ok (VStr s).
Proof.
  intros Hs. unfold feed, to_dict, obj_truthy.
  rewrite (str_truthy s Hs). simpl.
  eexists. split; reflexivity.
Qed.

Lemma text_feed_to_dict_content_witness :
  "hello" <> "" /\
  exists d,
    to_dict (feed (TextBlock 0 (PVal VNone)) (PVal (VStr "hello"))) = Ok d
    /\ py_get d "content" VNone = Ok (VStr "hello").
Proof.
  split; [discriminate|].
  apply (text_feed_to_dict_content 0 (PVal VNone) "hello"). discriminate.
Defined.

Lemma to_dict_raise_benign (b : Block) (e : exn) :
  to_dict b = Raise e -> is_mismatch e = false.
Proof.
  destruct b as [i o|i o vi vn]; unfold to_dict.
  - destruct (obj_truthy o); simpl.
    + destruct o as [[]|]; intros H; try discriminate H;
        injection H as <-; reflexivity.
    + intros H; injection H as <-; reflexivity.
  - destruct (obj_truthy o); simpl;
      [|intros H; injection H as <-; reflexivity].
    destruct (hasattr o "id") eqn:Hid; simpl;
      [|intros H; injection H as <-; reflexivity].
    destruct (hasattr o "name") eqn:Hname; simpl;
      [|intros H; injection H as <-; reflexivity].
    destruct o as [v|attrs]; [discriminate|].
    unfold hasattr in Hid, Hname. unfold getattr.
    destruct (assoc "id" attrs); [|discriminate].
    destruct (assoc "name" attrs); discriminate.
Qed.

Lemma map_result_raise {A B : Type} (f : A -> result B) (l : list A) (e : exn) :
  map_result f l = Raise e -> exists x, In x l /\ f x = Raise e.
Proof.
  induction l as [|x l IH]; simpl; [discriminate|].
  destruct (f x) as [y|e'] eqn:Hx.
  - destruct (map_result f l) as [ys|e'']; [discriminate|].
    intros H. injection H as <-.
    destruct (IH eq_refl) as [x' [Hin Hf]]. exists x'. auto.
  - intros H. injection H as <-. exists x. auto.
Qed.

Lemma map_result_In_raise {A B : Type} (f : A -> result B) (l : list A)
      (x : A) (e : exn) :
  In x l -> f x = Raise e -> exists e', map_result f l = Raise e'.
Proof.
  induction l as [|y l IH]; simpl; [contradiction|].
  intros [->|Hin] Hf.
  - rewrite Hf. eauto.
  - destruct (f y); [|eauto].
    destruct (IH Hin Hf) as [e' ->]. eauto.
Qed.

(** C10.  Feeding the empty string to a text block leaves it as good as
    unfed: [to_dict] raises the [ValueError] of an unfed block, the very
    result a reset block gives, and a story holding such a block cannot
    be committed, [_commit] raising before anything is posted. *)
Theorem text_feed_empty_is_unfed {imports : Imports} (i : Z) (d0 : pyobj)
        (st : Story) (pre post : list Block) :
  let b := feed (TextBlock i d0) (PVal (VStr "")) in
  let st1 := mkStory (_title st) (pre ++ b :: post) (sketch_id st)
                     (server st) (posted st) in
  to_dict b = Raise (ValueError "No data has been fed to the block.")
  /\ to_dict b = to_dict (reset (TextBlock i d0))
  /\ exists e, _commit st1 = (Raise e, st1).
Proof.
  intros b st1. split; [reflexivity|]. split; [reflexivity|].
  destruct (map_result_In_raise to_dict (pre ++ b :: post) b
              (ValueError "No data has been fed to the block."))
    as [e He].
  - apply in_or_app. right. left. reflexivity.
  - reflexivity.
  - exists e. unfold _commit, bind, get_blocks, lift. simpl. rewrite He.
    reflexivity.
Qed.

(** C2, as amended.  A text block with a valid payload survives the
    round trip.  For a view block with a valid payload, [from_dict] on a
    fresh view block records the identifier and the name and leaves the
    block unfed, so [to_dict] raises [ValueError]; once the block is fed
    the view object built from these two, as [Story.blocks] does,
    [to_dict] gives the representation back. *)
Theorem block_round_trip (b : Block) (d : value) (i sid : Z) :
  to_dict b = Ok d ->
  match b with
  | TextBlock _ _ => round_trips (new_TextBlock i) b
  | ViewBlock _ o _ _ =>
      exists b' vid vname,
        from_dict (new_ViewBlock i) d = Ok b'
        /\ to_dict b' = Raise (ValueError "No data has been fed to the block.")
        /\ getattr o "id" = Ok vid /\ getattr o "name" = Ok vname
        /\ view_id b' = Ok vid /\ view_name b' = Ok vname
        /\ to_dict (feed b' (View vid vname sid)) = Ok d
  end.
Proof.
  destruct b as [j o|j o vi vn]; intros H.
  - intros d' H'. apply to_dict_text_inv in H'.
    destruct H' as [s [-> [Hs ->]]].
    exists (TextBlock i (PVal (VStr s))). split; [reflexivity|].
    unfold to_dict, obj_truthy. rewrite (str_truthy s Hs). reflexivity.
  - apply to_dict_view_inv in H.
    destruct H as [vid [vname [_ [_ [Gid [Gname ->]]]]]].
    exists (ViewBlock i (PVal VNone) vid vname), vid, vname.
    repeat split; assumption.
Qed.

Lemma block_round_trip_witness :
  round_trips (new_TextBlock 0) (feed (new_TextBlock 3) (PVal (VStr "hello")))
  /\ exists b' vid vname,
       from_dict (new_ViewBlock 0)
         (VDict [ ("componentName", VStr "TsViewEventList");
                  ("componentProps",
                   VDict [("view", VDict [("id", VInt 7); ("name", VStr "v")])]);
                  ("content", VStr "");
                  ("edit", VBool false);
                  ("showPanel", VBool false);
                  ("isActive", VBool false) ]) = Ok b'
       /\ to_dict b' = Raise (ValueError "No data has been fed to the block.")
       /\ getattr (View (VInt 7) (VStr "v") 1) "id" = Ok vid
       /\ getattr (View (VInt 7) (VStr "v") 1) "name" = Ok vname
       /\ view_id b' = Ok vid /\ view_name b' = Ok vname
       /\ to_dict (feed b' (View vid vname 1)) = Ok
            (VDict [ ("componentName", VStr "TsViewEventList");
                     ("componentProps",
                      VDict [("view", VDict [("id", VInt 7); ("name", VStr "v")])]);
                     ("content", VStr "");
                     ("edit", VBool false);
                     ("showPanel", VBool false);
                     ("isActive", VBool false) ]).
Proof.
  split.
  - exact (block_round_trip (feed (new_TextBlock 3) (PVal (VStr "hello")))
             (VDict (dict_set "content" (VStr "hello") _get_base)) 0 1 eq_refl).
  - exact (block_round_trip
             (feed (new_ViewBlock 2) (View (VInt 7) (VStr "v") 1)) _ 0 1 eq_refl).
Defined.

(** C2, as stated, fails for view blocks: the representation of a fed
    view block, decoded into a fresh view block, does not encode. *)
Lemma view_round_trip_fails :
  ~ round_trips (new_ViewBlock 0)
      (feed (new_ViewBlock 0) (View (VInt 7) (VStr "v") 1)).
Proof.
  intros H.
  destruct (H _ eq_refl) as [b' [Hfrom Hto]].
  injection Hfrom as <-. discriminate Hto.
Qed.

(** ** The story *)

Section StoryProperties.

Context {imports : Imports}.

Lemma bind_inv {A B : Type} (m : M Story A) (k : A -> M Story B)
      (st st' : Story) (r : result B) :
  bind m k st = (r, st') ->
  (exists a st1, m st = (Ok a, st1) /\ k a st1 = (r, st'))
  \/ (exists e, m st = (Raise e, st') /\ r = Raise e).
Proof.
  unfold bind. destruct (m st) as [[a|e] st1]; intros H.
  - left. eauto.
  - right. injection H as <- <-. eauto.
Qed.

Lemma length_without {A : Type} (l : list A) (n : nat) :
  (n < List.length l)%nat ->
  S (List.length (firstn n l ++ skipn (S n) l)) = List.length l.
Proof.
  intros H. rewrite length_app, length_firstn, (length_skipn (S n) l). lia.
Qed.

Lemma list_pop_length {A : Type} (l rest : list A) (i : Z) (x : A) :
  list_pop l i = Some (x, rest) -> S (List.length rest) = List.length l.
Proof.
  unfold list_pop.
  set (j := if i <? 0 then i + Z.of_nat (List.length l) else i).
  destruct ((j <? 0) || (Z.of_nat (List.length l) <=? j)) eqn:Hr;
    [discriminate|].
  apply orb_false_elim in Hr. destruct Hr as [H0 Hn].
  apply Z.ltb_ge in H0. apply Z.leb_gt in Hn.
  destruct (nth_error l (Z.to_nat j)) as [y|] eqn:Hnth; [|discriminate].
  intros H. injection H as <- <-.
  apply length_without. lia.
Qed.

(** Whatever the status of the commit, a call of [_add_block] that
    returns evaluates to [None]; so do [add_text] and [add_view]. *)
Lemma add_block_result (block : Block) (i : Z) (st st' : Story) (r : value) :
  _add_block block i st = (Ok r, st') -> r = VNone.
Proof.
  unfold _add_block. intros H.
  apply bind_inv in H. destruct H as [[bs [st1 [_ H]]]|[e [_ He]]];
    [|discriminate He].
  apply bind_inv in H. destruct H as [[u [st2 [_ H]]]|[e [_ He]]];
    [|discriminate He].
  apply bind_inv in H. destruct H as [[c [st3 [_ H]]]|[e [_ He]]];
    [|discriminate He].
  apply bind_inv in H. destruct H as [[u' [st4 [_ H]]]|[e [_ He]]];
    [|discriminate He].
  injection H as <- _. reflexivity.
Qed.

Lemma add_text_result (t : pyobj) (i : Z) (st st' : Story) (r : value) :
  add_text t i st = (Ok r, st') -> r = VNone.
Proof.
  unfold add_text, bind, get_blocks. apply add_block_result.
Qed.

Lemma add_view_result (v : pyobj) (i : Z) (st st' : Story) (r : value) :
  add_view v i st = (Ok r, st') -> r = VNone.
Proof.
  unfold add_view.
  destruct (hasattr v "id"); [|discriminate].
  destruct (hasattr v "name"); [|discriminate].
  unfold bind, get_blocks. apply add_block_result.
Qed.

(** C8.  [move_to] with a negative [new_index] returns without raising
    and leaves the story as it was: the same blocks in the same order,
    and nothing posted. *)
Theorem move_to_negative_noop (st : Story) (block : Block) (new_index : Z) :
  new_index < 0 -> move_to block new_index st = (Ok VNone, st).
Proof.
  intros H. unfold move_to. apply Z.ltb_lt in H. rewrite H. reflexivity.
Qed.

Lemma title_raise_benign (st st' : Story) (e : exn) :
  title st = (Raise e, st') -> is_mismatch e = false.
Proof.
  unfold title, bind, get_title, do_lazyload, lift, set_title, ret.
  destruct (negb (truthy (_title st))); [|discriminate].
  destruct (lazyload_data false (server st)) as [d srv].
  destruct (py_get d "objects" VNone) as [objects|e1] eqn:Hobj.
  - destruct (truthy objects).
    + destruct (py_first objects) as [o|e2] eqn:Ho.
      * destruct (py_get o "title" (VStr "No Title")) as [t|e3] eqn:Ht.
        -- discriminate.
        -- intros H. injection H as <- _.
           destruct o; try discriminate Ht; injection Ht as <-; reflexivity.
      * intros H. injection H as <- _.
        destruct objects as [| | | [|] | [|] | ]; try discriminate Ho;
          injection Ho as <-; reflexivity.
    + discriminate.
  - intros H. injection H as <- _.
    destruct d; try discriminate Hobj; injection Hobj as <-; reflexivity.
Qed.

Lemma commit_raise_benign (st st' : Story) (e : exn) :
  _commit st = (Raise e, st') -> is_mismatch e = false.
Proof.
  unfold _commit. intros H.
  apply bind_inv in H. destruct H as [[bs [st1 [H1 H]]]|[e' [H1 _]]];
    [|discriminate H1].
  apply bind_inv in H. destruct H as [[cl [st2 [H2 H]]]|[e' [H2 He]]].
  - apply bind_inv in H. destruct H as [[t [st3 [H3 H]]]|[e' [H3 He]]].
    + apply bind_inv in H. destruct H as [[c [st4 [H4 H]]]|[e' [H4 He]]].
      * discriminate H.
      * unfold do_post in H4.
        destruct (session_post _ (server st3)); discriminate H4.
    + injection He as ->. eapply title_raise_benign; eassumption.
  - injection He as ->. unfold lift in H2. injection H2 as H2 _.
    apply map_result_raise in H2. destruct H2 as [b [_ Hb]].
    eapply to_dict_raise_benign; eassumption.
Qed.

(** C9.  When [move_to] raises the [ValueError] of its consistency
    guard, the payloads of the popped entry and of the argument
    differed, and the entry popped from the argument's index has not
    been put back: the story is left with the remaining blocks, one
    fewer than before, and nothing was posted. *)
Theorem move_to_mismatch_drops_block (st st' : Story) (block : Block)
        (new_index : Z) :
  move_to block new_index st
  = (Raise (ValueError "Block is not correctly set."), st') ->
  0 <= new_index
  /\ exists old d_old d_new,
       list_pop (_blocks st) (index block) = Some (old, _blocks st')
       /\ data old = Ok d_old /\ data block = Ok d_new
       /\ py_eq d_old d_new = false
       /\ S (List.length (_blocks st')) = List.length (_blocks st)
       /\ posted st' = posted st.
Proof.
  unfold move_to.
  destruct (new_index <? 0) eqn:Hn; [discriminate|].
  apply Z.ltb_ge in Hn. intros H. split; [assumption|].
  revert H. unfold bind at 1. unfold get_blocks at 1.
  destruct (list_pop (_blocks st) (index block)) as [[old rest]|] eqn:Hpop;
    [|discriminate].
  unfold bind at 1. unfold set_blocks at 1.
  unfold bind at 1. unfold lift at 1.
  destruct (data old) as [d_old|e1] eqn:Hold.
  - unfold bind at 1. unfold lift at 1.
    destruct (data block) as [d_new|e2] eqn:Hnew.
    + destruct (py_eq d_old d_new) eqn:Heq; simpl negb; cbv iota.
      * intros H.
        apply bind_inv in H. destruct H as [[bs [st1 [H1 H]]]|[e' [H1 _]]];
          [|discriminate H1].
        apply bind_inv in H. destruct H as [[u [st2 [H2 H]]]|[e' [H2 _]]];
          [|discriminate H2].
        apply bind_inv in H. destruct H as [[v [st3 [H3 H]]]|[e' [H3 He]]];
          [discriminate H|].
        injection He as <-. apply commit_raise_benign in H3. discriminate H3.
      * intros H. injection H as <-. simpl.
        exists old, d_old, d_new. repeat split; try assumption.
        eapply list_pop_length; eassumption.
    + intros H. injection H as -> _.
      apply to_dict_raise_benign in Hnew. discriminate Hnew.
  - intros H. injection H as -> _.
    apply to_dict_raise_benign in Hold. discriminate Hold.
Qed.

Lemma decode_entry_index (sid i : Z) (e : value) :
  index (decode_entry_spec sid i e) = i.
Proof.
  unfold decode_entry_spec. destruct (truthy (field e "content" VNone));
    reflexivity.
Qed.

Lemma decode_from_spec_length (sid i : Z) (l : list value) :
  List.length (decode_from_spec sid i l) = List.length l.
Proof.
  revert i. induction l as [|e l IH]; intros i; simpl; [|rewrite IH];
    reflexivity.
Qed.

Lemma decode_from_spec_nth (sid : Z) (l : list value) :
  forall (i : Z) (n : nat) (e : value),
    nth_error l n = Some e ->
    nth_error (decode_from_spec sid i l) n
    = Some (decode_entry_spec sid (i + Z.of_nat n) e).
Proof.
  induction l as [|x l IH]; intros i n e; destruct n as [|n];
    cbn [nth_error decode_from_spec]; try discriminate.
  - intros H. injection H as ->. rewrite Z.add_0_r. reflexivity.
  - intros H. rewrite (IH (i + 1) n e H).
    replace (i + 1 + Z.of_nat n) with (i + Z.of_nat (S n)) by lia.
    reflexivity.
Qed.

Lemma decode_from_spec_indices (sid : Z) (l : list value) :
  forall i, indices_from i (decode_from_spec sid i l) = true.
Proof.
  induction l as [|x l IH]; intros i; simpl; [reflexivity|].
  rewrite decode_entry_index, Z.eqb_refl, IH. reflexivity.
Qed.

(** One turn of the loop on an entry of the wire format appends the
    block the specification describes. *)
Lemma load_block_wire (e : value) (i : Z) (st : Story) :
  wire_entry e = true ->
  load_block e i st
  = (Ok tt,
     mkStory (_title st)
       (_blocks st ++ [decode_entry_spec (sketch_id st) i e])
       (sketch_id st) (server st) (posted st)).
Proof.
  destruct e as [| | | | |d]; try discriminate.
  unfold wire_entry, load_block, decode_entry_spec, field, from_dict,
    new_TextBlock, new_ViewBlock, py_get, bind, lift, get_blocks,
    set_blocks, get_sketch_id, ret.
  destruct (assoc "content" d) as [c|] eqn:Hc;
    [destruct (truthy c) eqn:Htc; [intros _; reflexivity|]|];
    simpl truthy; rewrite orb_false_l; cbv iota;
    (destruct (assoc "componentProps" d) as [[| | | | |props]|];
       try discriminate);
    (destruct (assoc "view" props) as [[| | | | |[|p vd]]|] eqn:Hv;
       try discriminate);
    intros _; reflexivity.
Qed.

Lemma load_blocks_wire (l : list value) :
  forall (i : Z) (st : Story),
    forallb wire_entry l = true ->
    load_blocks l i st
    = (Ok tt,
       mkStory (_title st)
         (_blocks st ++ decode_from_spec (sketch_id st) i l)
         (sketch_id st) (server st) (posted st)).
Proof.
  induction l as [|e l IH]; intros i st Hl; simpl.
  - rewrite app_nil_r. destruct st; reflexivity.
  - simpl in Hl. apply andb_prop in Hl. destruct Hl as [He Hl].
    unfold bind. rewrite (load_block_wire e i st He).
    rewrite (IH (i + 1) _ Hl). simpl. rewrite <- app_assoc. reflexivity.
Qed.

(** C5.  On a story whose blocks are not loaded, when the first object
    the service returns carries the JSON text of a list of entries of
    the wire format, [blocks] returns, in the order of the entries,
    a text block for each entry with a non-empty [content] and for any
    other entry a view block fed the view object resolved from
    [componentProps.view]; the block at position [n] has index [n]. *)
Theorem blocks_decodes_in_order (st : Story) (data : value) (srv : Server)
        (o : value) (rest : list value) (s : string) (entries : list value) :
  _blocks st = [] ->
  lazyload_data false (server st) = (data, srv) ->
  py_get data "objects" VNone = Ok (VList (o :: rest)) ->
  py_get o "content" (VList []) = Ok (VStr s) ->
  json_loads s = Ok (VList entries) ->
  forallb wire_entry entries = true ->
  let bs := decode_from_spec (sketch_id st) 0 entries in
  exists st',
    blocks st = (Ok bs, st') /\ _blocks st' = bs
    /\ List.length bs = List.length entries
    /\ (forall n e, nth_error entries n = Some e ->
          nth_error bs n
          = Some (decode_entry_spec (sketch_id st) (Z.of_nat n) e))
    /\ indices_ok bs = true.
Proof.
  intros Hb Hload Hobj Hcontent Hjson Hwire bs.
  exists (mkStory (_title st) bs (sketch_id st) srv (posted st)).
  split; [|split; [reflexivity|split; [|split]]].
  - unfold blocks, bind, get_blocks, do_lazyload, lift. rewrite Hb.
    unfold is_nil. cbv beta iota. rewrite Hload, Hobj.
    cbn [truthy is_nil negb py_first]. cbv beta iota. rewrite Hcontent.
    cbn [json_loads_obj]. rewrite Hjson. cbn [py_iter]. cbv beta iota.
    rewrite (load_blocks_wire entries 0 _ Hwire). simpl. rewrite Hb.
    reflexivity.
  - apply decode_from_spec_length.
  - intros n e Hn. apply (decode_from_spec_nth _ _ 0 n e Hn).
  - apply decode_from_spec_indices.
Qed.

(** C6, as amended.  On a story whose title is not loaded: when the
    fetched object list is empty the accessor returns the empty string
    and the title stays empty; when its first object is a dict the
    accessor returns that object's [title], or ["No Title"] when the
    key is absent, so that ["No Title"] is returned exactly when the
    key is absent or the stored title is ["No Title"] itself. *)
Theorem title_default (st : Story) (data : value) (srv : Server)
        (objs : list value) :
  _title st = VStr "" ->
  lazyload_data false (server st) = (data, srv) ->
  py_get data "objects" VNone = Ok (VList objs) ->
  (objs = [] ->
   exists st', title st = (Ok (VStr ""), st') /\ _title st' = VStr "")
  /\ (forall o rest, objs = VDict o :: rest ->
      fst (title st)
      = Ok (match assoc "title" o with
            | Some t => t
            | None => VStr "No Title"
            end)
      /\ (fst (title st) = Ok (VStr "No Title")
          <-> assoc "title" o = None
              \/ assoc "title" o = Some (VStr "No Title"))).
Proof.
  intros Ht Hload Hobj.
  assert (Hrun : forall o rest, objs = VDict o :: rest ->
            fst (title st)
            = Ok (match assoc "title" o with
                  | Some t => t
                  | None => VStr "No Title"
                  end)).
  { intros o rest ->.
    unfold title, bind, get_title, do_lazyload, lift, set_title.
    rewrite Ht. change (negb (truthy (VStr ""))) with true.
    cbv beta iota. rewrite Hload, Hobj. reflexivity. }
  split.
  - intros ->.
    exists (mkStory (_title st) (_blocks st) (sketch_id st) srv (posted st)).
    unfold title, bind, get_title, do_lazyload, lift, ret.
    rewrite Ht. change (negb (truthy (VStr ""))) with true.
    cbv beta iota. rewrite Hload, Hobj. simpl. rewrite Ht.
    split; reflexivity.
  - intros o rest Ho. split; [exact (Hrun o rest Ho)|].
    rewrite (Hrun o rest Ho).
    destruct (assoc "title" o) as [t|].
    + split.
      * intros H. injection H as ->. right. reflexivity.
      * intros [H|H]; [discriminate H|]. injection H as ->. reflexivity.
    + split; [intros _; left|]; reflexivity.
Qed.

End StoryProperties.

(** ** The methods run on a concrete service *)

Lemma move_to_negative_noop_witness :
  move_to (imports := Demo.demo) Demo.text_a (-1)
    (Demo.loaded_story (VStr "T") [Demo.text_a; Demo.text_b] 200)
  = (Ok VNone, Demo.loaded_story (VStr "T") [Demo.text_a; Demo.text_b] 200).
Proof.
  apply (@move_to_negative_noop Demo.demo
           (Demo.loaded_story (VStr "T") [Demo.text_a; Demo.text_b] 200)
           Demo.text_a (-1)).
  reflexivity.
Defined.

Lemma move_to_mismatch_drops_block_witness :
  0 <= 1
  /\ exists old d_old d_new,
       list_pop [Demo.text_a; Demo.text_b] (index Demo.stale)
       = Some (old, [Demo.text_b])
       /\ data old = Ok d_old /\ data Demo.stale = Ok d_new
       /\ py_eq d_old d_new = false
       /\ S (List.length [Demo.text_b])
          = List.length [Demo.text_a; Demo.text_b]
       /\ @posted Demo.demo
            (mkStory (VStr "T") [Demo.text_b] 1
               (server (Demo.loaded_story (VStr "T")
                          [Demo.text_a; Demo.text_b] 200)) [])
          = [].
Proof.
  apply (@move_to_mismatch_drops_block Demo.demo
           (Demo.loaded_story (VStr "T") [Demo.text_a; Demo.text_b] 200)
           (mkStory (VStr "T") [Demo.text_b] 1
              (server (Demo.loaded_story (VStr "T")
                         [Demo.text_a; Demo.text_b] 200)) [])
           Demo.stale 1).
  reflexivity.
Defined.

Lemma blocks_decodes_in_order_witness :
  let entries :=
    [Demo.repr Demo.text_a; Demo.repr Demo.view_v; Demo.repr Demo.text_b] in
  let bs :=
    [ TextBlock 0 (PVal (VStr "a"));
      ViewBlock 1 (View (VInt 7) (VStr "v") 1) (VInt 7) (VStr "v");
      TextBlock 2 (PVal (VStr "b")) ] in
  exists st',
    blocks (imports := Demo.demo) (Demo.fresh_story (VStr "T") entries 200)
    = (Ok bs, st')
    /\ _blocks st' = bs
    /\ List.length bs = List.length entries
    /\ (forall n e, nth_error entries n = Some e ->
          nth_error bs n = Some (decode_entry_spec 1 (Z.of_nat n) e))
    /\ indices_ok bs = true.
Proof.
  intros entries bs.
  apply (@blocks_decodes_in_order Demo.demo
           (Demo.fresh_story (VStr "T") entries 200)
           (VDict [("objects",
                    VList [VDict [("title", VStr "T");
                                  ("content",
                                   VStr (Demo.dumps (VList entries)))]])])
           (Demo.mkService
              [VDict [("title", VStr "T");
                      ("content", VStr (Demo.dumps (VList entries)))]] 200)
           (VDict [("title", VStr "T");
                   ("content", VStr (Demo.dumps (VList entries)))])
           [] (Demo.dumps (VList entries)) entries).
  - reflexivity.
  - reflexivity.
  - reflexivity.
  - reflexivity.
  - vm_compute. reflexivity.
  - reflexivity.
Defined.

Lemma title_default_witness :
  (exists st',
     title (imports := Demo.demo) Demo.unknown_story = (Ok (VStr ""), st')
     /\ _title st' = VStr "")
  /\ fst (title (imports := Demo.demo) Demo.untitled_story)
     = Ok (VStr "No Title").
Proof.
  split.
  - exact (proj1 (@title_default Demo.demo Demo.unknown_story
                    (VDict [("objects", VList [])]) (Demo.mkService [] 200) []
                    eq_refl eq_refl eq_refl) eq_refl).
  - exact (proj1 (proj2 (@title_default Demo.demo Demo.untitled_story
                           (VDict [("objects",
                                    VList [VDict [("content", VStr "[]")]])])
                           (Demo.mkService [VDict [("content", VStr "[]")]] 200)
                           [VDict [("content", VStr "[]")]]
                           eq_refl eq_refl eq_refl)
                    [("content", VStr "[]")] [] eq_refl)).
Defined.

(** C6, as stated, fails on a story that the service holds under the
    title ["No Title"]: the accessor returns ["No Title"] although the
    first object has a [title] key. *)
Lemma title_default_claim_fails :
  ~ title_default_claim (imports := Demo.demo)
      (Demo.fresh_story (VStr "No Title") [] 200).
Proof.
  intros H.
  specialize (H eq_refl _ _ _ eq_refl eq_refl).
  destruct H as [H _]. destruct (H eq_refl) as [o [rest [Heq Hnone]]].
  injection Heq as <- <-. discriminate Hnone.
Qed.

(** C1.  On a loaded, empty story whose service accepts the commit with
    status 200, [add_text] and [add_view] post the story and return
    [None], although [_commit] on the story with the block inserted
    returns [True]; with a service that answers 500 they return [None]
    as well. *)
Theorem add_text_returns_None :
  let st := Demo.loaded_story (VStr "T") [] 200 in
  let st500 := Demo.loaded_story (VStr "T") [] 500 in
  let hello := feed (new_TextBlock 0) (PVal (VStr "hello")) in
  let v := View (VInt 7) (VStr "v") 1 in
  fst (add_text (imports := Demo.demo) (PVal (VStr "hello")) (-1) st) = Ok VNone
  /\ List.length
       (posted (snd (add_text (imports := Demo.demo)
                       (PVal (VStr "hello")) (-1) st))) = 1%nat
  /\ fst (_commit (imports := Demo.demo)
            (mkStory (_title st) [hello] (sketch_id st) (server st) (posted st)))
     = Ok (VBool true)
  /\ fst (add_view (imports := Demo.demo) v (-1) st) = Ok VNone
  /\ fst (add_text (imports := Demo.demo) (PVal (VStr "hello")) (-1) st500)
     = Ok VNone
  /\ fst (_commit (imports := Demo.demo)
            (mkStory (_title st500) [hello] (sketch_id st500) (server st500)
               (posted st500)))
     = Ok (VBool false).
Proof.
  vm_compute. repeat split; reflexivity.
Qed.

(** C3.  On a loaded story of two text blocks, where every index is the
    block's position, [move_to] of the first block to position 1 commits
    the new order and leaves both blocks with the index they had: the
    indices no longer give the positions.  [move_down] on the moved
    block then pops the other block and raises.  [remove_block] on the
    same story reloads the blocks, whose indices are their positions. *)
Theorem move_to_leaves_indices_stale :
  let st := Demo.loaded_story (VStr "T") [Demo.text_a; Demo.text_b] 200 in
  let moved := snd (move_to (imports := Demo.demo) Demo.text_a 1 st) in
  indices_ok (_blocks st) = true
  /\ fst (move_to (imports := Demo.demo) Demo.text_a 1 st) = Ok VNone
  /\ _blocks moved = [Demo.text_b; Demo.text_a]
  /\ List.length (posted moved) = 1%nat
  /\ indices_ok (_blocks moved) = false
  /\ move_down (imports := Demo.demo) Demo.text_a moved
     = (Raise (ValueError "Block is not correctly set."),
        mkStory (_title moved) [Demo.text_a] (sketch_id moved) (server moved)
          (posted moved))
  /\ fst (remove_block (imports := Demo.demo) 0 st) = Ok VNone
  /\ _blocks (snd (remove_block (imports := Demo.demo) 0 st))
     = [TextBlock 0 (PVal (VStr "b"))].
Proof.
  vm_compute. repeat split; reflexivity.
Qed.

(** * Further properties of the module *)

(** ** Encoding and decoding of blocks *)

(** X1.  A view block fed an object that has an [id] and a [name]
    encodes to a representation whose component is [TsViewEventList],
    whose [componentProps.view] holds exactly that id and name, and whose
    [content] is empty. *)
Theorem view_to_dict_fields (i : Z) (o : pyobj) (vi vn : value)
        (attrs : list (string * value)) (vid vname : value) :
  assoc "id" attrs = Some vid ->
  assoc "name" attrs = Some vname ->
  exists d props,
    to_dict (feed (ViewBlock i o vi vn) (PInst attrs)) = Ok d
    /\ py_get d "componentName" VNone = Ok (VStr "TsViewEventList")
    /\ py_get d "componentProps" VNone = Ok props
    /\ py_get props "view" VNone = Ok (VDict [("id", vid); ("name", vname)])
    /\ py_get d "content" VNone = Ok (VStr "").
Proof.
  intros Hid Hname. unfold feed, to_dict, obj_truthy, hasattr, getattr.
  rewrite Hid, Hname. simpl.
  eexists. eexists. repeat split; reflexivity.
Qed.

Lemma view_to_dict_fields_witness :
  exists d props,
    to_dict (feed (new_ViewBlock 0)
               (PInst [("name", VStr "v"); ("id", VInt 7); ("sketch", VInt 1)]))
    = Ok d
    /\ py_get d "componentName" VNone = Ok (VStr "TsViewEventList")
    /\ py_get d "componentProps" VNone = Ok props
    /\ py_get props "view" VNone
       = Ok (VDict [("id", VInt 7); ("name", VStr "v")])
    /\ py_get d "content" VNone = Ok (VStr "").
Proof.
  exact (view_to_dict_fields 0 (PVal VNone) (VInt 0) (VStr "")
           [("name", VStr "v"); ("id", VInt 7); ("sketch", VInt 1)]
           (VInt 7) (VStr "v") eq_refl eq_refl).
Defined.

Ltac to_dict_pick :=
  simpl;
  first
    [ left; split; reflexivity
    | right; left; split; [reflexivity|split; [reflexivity|eexists; reflexivity]]
    | right; right; split; [reflexivity|split; [reflexivity|eexists; reflexivity]] ].

Ltac to_dict_iff :=
  split; split;
  [ intros [x Hx]; first [discriminate Hx | reflexivity]
  | intros Hx; first [discriminate Hx | eauto]
  | intros [x Hx]; first [discriminate Hx | split; reflexivity]
  | intros [Hx1 Hx2]; first [discriminate Hx1 | discriminate Hx2 | eauto] ].

(** The three outcomes of [to_dict]. *)
Lemma to_dict_cases (b : Block) :
  (obj_truthy (_data b) = false
   /\ to_dict b = Raise (ValueError "No data has been fed to the block."))
  \/ (obj_truthy (_data b) = true /\ valid_payload b = false
      /\ exists msg, to_dict b = Raise (TypeError msg))
  \/ (obj_truthy (_data b) = true /\ valid_payload b = true
      /\ exists d, to_dict b = Ok d).
Proof.
  destruct b as [i o|i o vi vn];
    unfold to_dict, valid_payload, _data, obj_truthy, truthy, hasattr, getattr.
  - destruct o as [[|c|z|s|l|d]|attrs]; try to_dict_pick.
    + destruct c; to_dict_pick.
    + destruct (z =? 0); to_dict_pick.
    + destruct (s =? "")%string; to_dict_pick.
    + destruct l; to_dict_pick.
    + destruct d; to_dict_pick.
  - destruct o as [[|c|z|s|l|d]|attrs]; try to_dict_pick.
    + destruct c; to_dict_pick.
    + destruct (z =? 0); to_dict_pick.
    + destruct (s =? "")%string; to_dict_pick.
    + destruct l; to_dict_pick.
    + destruct d; to_dict_pick.
    + destruct (assoc "id" attrs); destruct (assoc "name" attrs); to_dict_pick.
Qed.

(** X2.  [to_dict] raises the [ValueError] of an unfed block exactly
    when the payload is falsy: never fed, reset, or fed [None], the
    empty string, zero, or an empty list or dict. *)
Theorem to_dict_unfed_iff (b : Block) :
  to_dict b = Raise (ValueError "No data has been fed to the block.")
  <-> obj_truthy (_data b) = false.
Proof.
  destruct (to_dict_cases b) as [[Ht H]|[[Ht [Hv [m H]]]|[Ht [Hv [d H]]]]];
    rewrite H, Ht; split; intros H'; try reflexivity; discriminate H'.
Qed.

(** X3.  [to_dict] returns a representation exactly when the payload is
    valid for the block's kind, and raises [TypeError] exactly when the
    payload is truthy and not valid. *)
Theorem to_dict_ok_iff_valid (b : Block) :
  ((exists d, to_dict b = Ok d) <-> valid_payload b = true)
  /\ ((exists msg, to_dict b = Raise (TypeError msg))
      <-> obj_truthy (_data b) = true /\ valid_payload b = false).
Proof.
  destruct (to_dict_cases b) as [[Ht H]|[[Ht [Hv [m H]]]|[Ht [Hv [d H]]]]];
    rewrite H, Ht.
  - assert (Hv : valid_payload b = false).
    { destruct b as [i [[]|]|i o vi vn]; try reflexivity; simpl in *.
      - destruct (s =? "")%string; [reflexivity|discriminate Ht].
      - rewrite Ht. reflexivity. }
    rewrite Hv. to_dict_iff.
  - rewrite Hv. to_dict_iff.
  - rewrite Hv. to_dict_iff.
Qed.

(** X4.  Decoding into a view block a dict whose [componentProps] has no
    [view], or an empty or null one, raises [TypeError]; so does a dict
    without [componentProps]. *)
Theorem view_from_dict_without_view (i : Z) (o : pyobj) (vi vn : value)
        (d props : list (string * value)) :
  py_get (VDict d) "componentProps" (VDict []) = Ok (VDict props) ->
  truthy (field (VDict props) "view" VNone) = false ->
  from_dict (ViewBlock i o vi vn) (VDict d) = Raise (TypeError "View not defined").
Proof.
  intros Hp Hv. unfold from_dict. rewrite Hp.
  unfold py_get, field in *. rewrite Hv. reflexivity.
Qed.

Lemma view_from_dict_without_view_witness :
  from_dict (new_ViewBlock 0) (VDict _get_base)
  = Raise (TypeError "View not defined")
  /\ from_dict (new_ViewBlock 0) (VDict [("content", VStr "")])
     = Raise (TypeError "View not defined").
Proof.
  split.
  - exact (view_from_dict_without_view 0 (PVal VNone) (VInt 0) (VStr "")
             _get_base [] eq_refl eq_refl).
  - exact (view_from_dict_without_view 0 (PVal VNone) (VInt 0) (VStr "")
             [("content", VStr "")] [] eq_refl eq_refl).
Defined.

(** X5.  [from_dict] never changes a block's index or kind.  On a view
    block it leaves the payload as it was, so a fresh view block stays
    unfed; on a text block it replaces the payload by the [content] of
    the dict, the empty string when the key is missing. *)
Theorem from_dict_frame (b b' : Block) (d : value) :
  from_dict b d = Ok b' ->
  index b' = index b /\ TYPE b' = TYPE b
  /\ match b with
     | TextBlock _ _ => _data b' = PVal (field d "content" (VStr ""))
     | ViewBlock _ o _ _ => _data b' = o
     end.
Proof.
  destruct b as [i o|i o vi vn]; unfold from_dict.
  - destruct d; simpl; try discriminate.
    intros H. injection H as <-. repeat split.
  - destruct (py_get d "componentProps" (VDict [])) as [props|]; [|discriminate].
    destruct (py_get props "view" VNone) as [vd|]; [|discriminate].
    destruct (negb (truthy vd)); [discriminate|].
    destruct (py_get vd "id" (VInt 0)) as [vid|]; [|discriminate].
    destruct (py_get vd "name" (VStr "")) as [vname|]; [|discriminate].
    intros H. injection H as <-. repeat split.
Qed.

Lemma from_dict_frame_witness :
  index (TextBlock 4 (PVal (VStr "x"))) = index (TextBlock 4 (PInst []))
  /\ TYPE (TextBlock 4 (PVal (VStr "x"))) = TYPE (TextBlock 4 (PInst []))
  /\ _data (TextBlock 4 (PVal (VStr "x")))
     = PVal (field (VDict [("content", VStr "x")]) "content" (VStr "")).
Proof.
  exact (from_dict_frame (TextBlock 4 (PInst []))
           (TextBlock 4 (PVal (VStr "x")))
           (VDict [("content", VStr "x")]) eq_refl).
Defined.

(** X6.  Decoding into a text block a dict that has no [content], or an
    empty one, succeeds, and the block it gives does not encode:
    [to_dict] raises the [ValueError] of an unfed block. *)
Theorem text_from_dict_empty_content (i : Z) (o : pyobj)
        (d : list (string * value)) :
  truthy (field (VDict d) "content" (VStr "")) = false ->
  exists b',
    from_dict (TextBlock i o) (VDict d) = Ok b'
    /\ to_dict b' = Raise (ValueError "No data has been fed to the block.").
Proof.
  intros H. unfold from_dict, py_get, field in *. eexists. split; [reflexivity|].
  unfold feed, to_dict, obj_truthy. rewrite H. reflexivity.
Qed.

Lemma text_from_dict_empty_content_witness :
  exists b',
    from_dict (new_TextBlock 0)
      (VDict [("componentName", VStr ""); ("componentProps", VDict [])])
    = Ok b'
    /\ to_dict b' = Raise (ValueError "No data has been fed to the block.").
Proof.
  exact (text_from_dict_empty_content 0 (PVal VNone)
           [("componentName", VStr ""); ("componentProps", VDict [])] eq_refl).
Defined.

(** ** What the accessors and the commit touch *)

Section StoryFrames.

Context {imports : Imports}.

Lemma title_frame (st st' : Story) (r : result value) :
  title st = (r, st') ->
  _blocks st' = _blocks st /\ sketch_id st' = sketch_id st
  /\ posted st' = posted st
  /\ (forall t, r = Ok t -> _title st' = t).
Proof.
  unfold title, bind, get_title, do_lazyload, lift, set_title, ret.
  destruct (negb (truthy (_title st))).
  - destruct (lazyload_data false (server st)) as [d srv].
    destruct (py_get d "objects" VNone) as [objects|e1].
    + destruct (truthy objects).
      * destruct (py_first objects) as [o|e2].
        -- destruct (py_get o "title" (VStr "No Title")) as [t|e3];
             intros H; injection H as <- <-; simpl; repeat split;
             intros t' Ht'; try discriminate Ht'; injection Ht' as <-;
             reflexivity.
        -- intros H; injection H as <- <-; simpl; repeat split;
             intros t' Ht'; discriminate Ht'.
      * intros H; injection H as <- <-; simpl; repeat split.
        intros t' Ht'. injection Ht' as <-. reflexivity.
    + intros H; injection H as <- <-; simpl; repeat split.
      intros t' Ht'. discriminate Ht'.
  - intros H; injection H as <- <-; simpl; repeat split.
    intros t' Ht'. injection Ht' as <-. reflexivity.
Qed.

Lemma title_cached (st : Story) :
  truthy (_title st) = true -> title st = (Ok (_title st), st).
Proof.
  intros H. unfold title, bind, get_title, ret. rewrite H. reflexivity.
Qed.

(** X7.  Once the accessor has returned a non-empty title, the title is
    cached: the next access returns the same title and leaves the story
    and the service as they are. *)
Theorem title_is_cached (st st' : Story) (t : value) :
  title st = (Ok t, st') -> truthy t = true -> title st' = (Ok t, st').
Proof.
  intros H Ht. apply title_frame in H. destruct H as [_ [_ [_ H]]].
  specialize (H t eq_refl). rewrite <- H in Ht.
  rewrite (title_cached st' Ht), H. reflexivity.
Qed.

Lemma indices_from_app (l1 l2 : list Block) :
  forall i,
    indices_from i (l1 ++ l2)
    = indices_from i l1 && indices_from (i + Z.of_nat (List.length l1)) l2.
Proof.
  induction l1 as [|b l1 IH]; intros i.
  - cbn [app indices_from List.length Z.of_nat andb]. rewrite Z.add_0_r.
    reflexivity.
  - cbn [app indices_from List.length]. rewrite IH, Nat2Z.inj_succ.
    replace (i + 1 + Z.of_nat (List.length l1))
      with (i + Z.succ (Z.of_nat (List.length l1))) by lia.
    rewrite andb_assoc. reflexivity.
Qed.

Lemma from_dict_index (b b' : Block) (d : value) :
  from_dict b d = Ok b' -> index b' = index b /\ TYPE b' = TYPE b.
Proof.
  destruct b as [i o|i o vi vn]; unfold from_dict.
  - destruct (py_get d "content" (VStr "")) as [t|]; [|discriminate].
    intros H. injection H as <-. split; reflexivity.
  - destruct (py_get d "componentProps" (VDict [])) as [props|]; [|discriminate].
    destruct (py_get props "view" VNone) as [vd|]; [|discriminate].
    destruct (negb (truthy vd)); [discriminate|].
    destruct (py_get vd "id" (VInt 0)) as [vid|]; [|discriminate].
    destruct (py_get vd "name" (VStr "")) as [vname|]; [|discriminate].
    intros H. injection H as <-. split; reflexivity.
Qed.

Lemma load_block_frame (e : value) (i : Z) (st st' : Story) (r : result unit) :
  load_block e i st = (r, st') ->
  _title st' = _title st /\ sketch_id st' = sketch_id st
  /\ server st' = server st /\ posted st' = posted st
  /\ ((r = Ok tt /\ exists b, _blocks st' = _blocks st ++ [b] /\ index b = i)
      \/ ((exists x, r = Raise x) /\ _blocks st' = _blocks st)).
Proof.
  unfold load_block, bind, lift, get_blocks, set_blocks, get_sketch_id, ret.
  destruct (py_get e "content" VNone) as [c|x].
  - destruct (truthy c).
    + destruct (from_dict (new_TextBlock i) e) as [b|x] eqn:Hb.
      * intros H. injection H as <- <-. simpl. repeat split.
        left. split; [reflexivity|]. exists b. split; [reflexivity|].
        apply from_dict_index in Hb. apply Hb.
      * intros H. injection H as <- <-. repeat split. right. eauto.
    + destruct (from_dict (new_ViewBlock i) e) as [b|x] eqn:Hb.
      * apply from_dict_index in Hb. destruct Hb as [Hi Hk].
        destruct b as [j o|j o vi vn]; [discriminate Hk|].
        simpl in Hi. subst j. unfold view_id, view_name.
        destruct (if obj_truthy o && hasattr o "id"
                  then getattr o "id" else Ok vi) as [vid|x].
        -- destruct (if obj_truthy o && hasattr o "name"
                     then getattr o "name" else Ok vn) as [vname|x].
           ++ intros H. injection H as <- <-. simpl. repeat split.
              left. split; [reflexivity|]. eexists. split; reflexivity.
           ++ intros H. injection H as <- <-. repeat split. right. eauto.
        -- intros H. injection H as <- <-. repeat split. right. eauto.
      * intros H. injection H as <- <-. repeat split. right. eauto.
  - intros H. injection H as <- <-. repeat split. right. eauto.
Qed.

Lemma load_blocks_frame (l : list value) :
  forall (i : Z) (st st' : Story) (r : result unit),
    load_blocks l i st = (r, st') ->
    _title st' = _title st /\ sketch_id st' = sketch_id st
    /\ server st' = server st /\ posted st' = posted st
    /\ exists new,
         _blocks st' = _blocks st ++ new /\ indices_from i new = true
         /\ (r = Ok tt -> List.length new = List.length l).
Proof.
  induction l as [|e l IH]; intros i st st' r; cbn [load_blocks].
  - intros H. injection H as <- <-. repeat split.
    exists []. rewrite app_nil_r. repeat split.
  - intros H. apply bind_inv in H.
    destruct H as [[u [st1 [H1 H]]]|[x [H1 ->]]].
    + apply load_block_frame in H1.
      destruct H1 as [Ht [Hs [Hv [Hp [[_ [b [Hb Hi]]]|[[x Hx] _]]]]]];
        [|discriminate Hx].
      apply IH in H.
      destruct H as [Ht' [Hs' [Hv' [Hp' [new [Hn [Hidx Hlen]]]]]]].
      repeat split; try congruence.
      exists (b :: new). split; [|split].
      * rewrite Hn, Hb, <- app_assoc. reflexivity.
      * cbn [indices_from]. rewrite Hi, Z.eqb_refl, Hidx. reflexivity.
      * intros Hr. cbn [List.length]. rewrite (Hlen Hr). reflexivity.
    + apply load_block_frame in H1.
      destruct H1 as [Ht [Hs [Hv [Hp [[Hx _]|[_ Hb]]]]]]; [discriminate Hx|].
      repeat split; try assumption.
      exists []. rewrite app_nil_r. repeat split; [assumption|].
      intros Hr. discriminate Hr.
Qed.

Lemma blocks_cached (st : Story) :
  _blocks st <> [] -> blocks st = (Ok (_blocks st), st).
Proof.
  intros H. unfold blocks, bind, get_blocks, ret.
  destruct (_blocks st) as [|b bs] eqn:Hb; [contradiction|].
  simpl. rewrite Hb. reflexivity.
Qed.

Lemma blocks_frame (st st' : Story) (r : result (list Block)) :
  blocks st = (r, st') ->
  _title st' = _title st /\ sketch_id st' = sketch_id st
  /\ posted st' = posted st
  /\ (forall bs, r = Ok bs -> bs = _blocks st')
  /\ (_blocks st = [] -> indices_ok (_blocks st') = true).
Proof.
  destruct (_blocks st) as [|b0 bs0] eqn:Hb.
  - unfold blocks, bind at 1, get_blocks at 1. rewrite Hb.
    cbn [is_nil]. intros H. apply bind_inv in H.
    assert (Hload :
      forall (r1 : result unit) (st1 : Story),
        (story_data <- do_lazyload false ;;
         objects <- lift (py_get story_data "objects" VNone) ;;
         content <-
           (if truthy objects then
              o <- lift (py_first objects) ;;
              lift (py_get o "content" (VList []))
            else ret (VStr "")) ;;
         decoded <- lift (json_loads_obj content) ;;
         items <- lift (py_iter decoded) ;;
         load_blocks items 0)%py st = (r1, st1) ->
        _title st1 = _title st /\ sketch_id st1 = sketch_id st
        /\ posted st1 = posted st /\ indices_ok (_blocks st1) = true).
    { intros r1 st1.
      unfold bind at 1, do_lazyload.
      destruct (lazyload_data false (server st)) as [d srv].
      unfold bind at 1, lift at 1.
      destruct (py_get d "objects" VNone) as [objects|x];
        [|intros E; injection E as <- <-; simpl; rewrite Hb; repeat split].
      unfold bind at 1.
      destruct (truthy objects).
      - unfold bind at 1, lift at 1.
        destruct (py_first objects) as [o|x];
          [|intros E; injection E as <- <-; simpl; rewrite Hb; repeat split].
        unfold lift at 1.
        destruct (py_get o "content" (VList [])) as [c|x];
          [|intros E; injection E as <- <-; simpl; rewrite Hb; repeat split].
        unfold bind at 1, lift at 1.
        destruct (json_loads_obj c) as [dec|x];
          [|intros E; injection E as <- <-; simpl; rewrite Hb; repeat split].
        unfold bind at 1, lift at 1.
        destruct (py_iter dec) as [items|x];
          [|intros E; injection E as <- <-; simpl; rewrite Hb; repeat split].
        intros E. apply load_blocks_frame in E.
        destruct E as [Ht [Hs [_ [Hp [new [Hn [Hidx _]]]]]]].
        simpl in *. rewrite Hb in Hn. simpl in Hn.
        repeat split; try assumption. rewrite Hn. exact Hidx.
      - unfold ret at 1.
        unfold bind at 1, lift at 1.
        destruct (json_loads_obj (VStr "")) as [dec|x];
          [|intros E; injection E as <- <-; simpl; rewrite Hb; repeat split].
        unfold bind at 1, lift at 1.
        destruct (py_iter dec) as [items|x];
          [|intros E; injection E as <- <-; simpl; rewrite Hb; repeat split].
        intros E. apply load_blocks_frame in E.
        destruct E as [Ht [Hs [_ [Hp [new [Hn [Hidx _]]]]]]].
        simpl in *. rewrite Hb in Hn. simpl in Hn.
        repeat split; try assumption. rewrite Hn. exact Hidx. }
    destruct H as [[u [st1 [H1 H]]]|[x [H1 ->]]].
    + apply Hload in H1. destruct H1 as [Ht [Hs [Hp Hi]]].
      unfold get_blocks in H. injection H as <- <-.
      repeat split; try assumption; [|intros _; exact Hi].
      intros bs E. injection E as <-. reflexivity.
    + apply Hload in H1. destruct H1 as [Ht [Hs [Hp Hi]]].
      repeat split; try assumption; [|intros _; exact Hi].
      intros bs E. discriminate E.
  - intros H. rewrite blocks_cached in H by (rewrite Hb; discriminate).
    injection H as <- <-. repeat split.
    + intros bs E. injection E as <-. reflexivity.
    + intros E. discriminate E.
Qed.

End StoryFrames.

(** ** Loading, committing and refreshing *)

Section StoryBehaviour.

Context {imports : Imports}.

(** X8.  Once [blocks] has returned a non-empty list, the list is
    cached: the next access returns the same blocks without contacting
    the service. *)
Theorem blocks_is_cached (st st' : Story) (bs : list Block) :
  blocks st = (Ok bs, st') -> bs <> [] -> blocks st' = (Ok bs, st').
Proof.
  intros H Hne. apply blocks_frame in H. destruct H as [_ [_ [_ [H _]]]].
  specialize (H bs eq_refl). subst bs. apply blocks_cached. exact Hne.
Qed.

(** X9.  When the blocks are not loaded and the first object the
    service returns has no [content] key, [blocks] hands the default, an
    empty list, to [json.loads] and raises [TypeError]; no block is
    loaded. *)
Theorem blocks_without_content_key (st : Story) (data : value) (srv : Server)
        (o : list (string * value)) (rest : list value) :
  _blocks st = [] ->
  lazyload_data false (server st) = (data, srv) ->
  py_get data "objects" VNone = Ok (VList (VDict o :: rest)) ->
  assoc "content" o = None ->
  blocks st
  = (Raise (TypeError
              "the JSON object must be str, bytes or bytearray, not list"),
     mkStory (_title st) [] (sketch_id st) srv (posted st)).
Proof.
  intros Hb Hload Hobj Hc.
  unfold blocks, bind, get_blocks, do_lazyload, lift. rewrite Hb.
  unfold is_nil. cbv beta iota. rewrite Hload, Hobj.
  cbn [truthy is_nil negb py_first py_get]. cbv beta iota. rewrite Hc.
  cbn [json_loads_obj]. rewrite Hb. reflexivity.
Qed.

Lemma load_blocks_app_wire (l1 l2 : list value) :
  forall (i : Z) (st : Story),
    forallb wire_entry l1 = true ->
    load_blocks (l1 ++ l2) i st
    = load_blocks l2 (i + Z.of_nat (List.length l1))
        (mkStory (_title st)
           (_blocks st ++ decode_from_spec (sketch_id st) i l1)
           (sketch_id st) (server st) (posted st)).
Proof.
  induction l1 as [|e l1 IH]; intros i st Hl.
  - cbn [app decode_from_spec List.length Z.of_nat].
    rewrite app_nil_r, Z.add_0_r. destruct st; reflexivity.
  - cbn [forallb] in Hl. apply andb_prop in Hl. destruct Hl as [He Hl].
    cbn [app load_blocks]. unfold bind. rewrite (load_block_wire e i st He).
    rewrite (IH (i + 1) _ Hl). cbn [_title _blocks sketch_id server posted].
    cbn [decode_from_spec List.length]. rewrite <- app_assoc, Nat2Z.inj_succ.
    replace (i + 1 + Z.of_nat (List.length l1))
      with (i + Z.succ (Z.of_nat (List.length l1))) by lia.
    reflexivity.
Qed.

(** X10.  When an entry of the raw list has neither a non-empty
    [content] nor a [view], [blocks] raises [TypeError] at that entry
    and keeps the blocks decoded before it; if there are any, the next
    access returns this partial list as the story's blocks. *)
Theorem blocks_partial_load (st : Story) (data : value) (srv : Server)
        (o : value) (objs : list value) (s : string)
        (good rest : list value) (d props : list (string * value)) :
  _blocks st = [] ->
  lazyload_data false (server st) = (data, srv) ->
  py_get data "objects" VNone = Ok (VList (o :: objs)) ->
  py_get o "content" (VList []) = Ok (VStr s) ->
  json_loads s = Ok (VList (good ++ VDict d :: rest)) ->
  forallb wire_entry good = true ->
  truthy (field (VDict d) "content" VNone) = false ->
  py_get (VDict d) "componentProps" (VDict []) = Ok (VDict props) ->
  truthy (field (VDict props) "view" VNone) = false ->
  let partial := decode_from_spec (sketch_id st) 0 good in
  let st' := mkStory (_title st) partial (sketch_id st) srv (posted st) in
  blocks st = (Raise (TypeError "View not defined"), st')
  /\ (good <> [] -> blocks st' = (Ok partial, st')).
Proof.
  intros Hb Hload Hobj Hcontent Hjson Hgood Hc Hp Hv partial st'. split.
  - unfold blocks, bind, get_blocks, do_lazyload, lift. rewrite Hb.
    unfold is_nil. cbv beta iota. rewrite Hload, Hobj.
    cbn [truthy is_nil negb py_first]. cbv beta iota. rewrite Hcontent.
    cbn [json_loads_obj]. rewrite Hjson. cbn [py_iter]. cbv beta iota.
    rewrite (load_blocks_app_wire good _ 0 _ Hgood).
    cbn [load_blocks _title _blocks sketch_id server posted].
    unfold bind, load_block at 1, bind, lift, new_ViewBlock.
    unfold field in Hc. unfold py_get at 1. cbv beta iota. rewrite Hc.
    unfold from_dict. rewrite Hp. unfold field in Hv. unfold py_get at 1.
    rewrite Hv. cbn [negb]. rewrite Hb. reflexivity.
  - intros Hne. apply blocks_cached. subst st' partial. simpl.
    destruct good; [contradiction|discriminate].
Qed.

(** X11.  Whatever the service returns, and whether the load returns or
    raises, the blocks a story holds after [blocks] has loaded them
    carry their positions as indices. *)
Theorem blocks_load_indices (st st' : Story) (r : result (list Block)) :
  _blocks st = [] -> blocks st = (r, st') ->
  indices_ok (_blocks st') = true.
Proof.
  intros Hb H. apply blocks_frame in H.
  destruct H as [_ [_ [_ [_ H]]]]. exact (H Hb).
Qed.

Lemma refresh_effect (st st' : Story) (r : result unit) :
  refresh st = (r, st') ->
  _title st' = VStr "" /\ posted st' = posted st
  /\ sketch_id st' = sketch_id st
  /\ indices_ok (_blocks st') = true.
Proof.
  unfold refresh, bind at 1, set_title at 1.
  unfold bind at 1, set_blocks at 1.
  unfold bind at 1, do_lazyload.
  cbn [_title _blocks sketch_id server posted].
  destruct (lazyload_data true (server st)) as [d srv].
  intros H. apply bind_inv in H.
  destruct H as [[bs [st1 [H1 H]]]|[x [H1 _]]];
    [injection H as _ <-|];
    apply blocks_frame in H1; destruct H1 as [Ht [Hs [Hp [_ Hi]]]];
    specialize (Hi eq_refl); repeat split; assumption.
Qed.

(** X12.  [refresh] posts nothing and leaves the title unloaded (the
    empty string, to be fetched at its next access); the blocks it
    leaves, whether the reload returned or raised, carry their positions
    as indices. *)
Theorem refresh_frame (st st' : Story) (r : result unit) :
  refresh st = (r, st') ->
  _title st' = VStr "" /\ posted st' = posted st
  /\ sketch_id st' = sketch_id st
  /\ indices_ok (_blocks st') = true.
Proof.
  intros H. destruct (refresh_effect st st' r H) as [Ht [Hp [Hs Hi]]].
  repeat split; assumption.
Qed.

Lemma commit_effect (st st' : Story) (r : result value) :
  _commit st = (r, st') ->
  _blocks st' = _blocks st /\ sketch_id st' = sketch_id st
  /\ match r with
     | Ok v =>
         exists t st1 reprs,
           map_result to_dict (_blocks st) = Ok reprs
           /\ title st = (Ok t, st1)
           /\ posted st' = commit_body t reprs :: posted st
           /\ server st'
              = snd (session_post (commit_body t reprs) (server st1))
           /\ v = VBool (existsb
                           (Z.eqb (fst (session_post (commit_body t reprs)
                                          (server st1))))
                           HTTP_STATUS_CODE_20X)
     | Raise _ => posted st' = posted st
     end.
Proof.
  unfold _commit, bind at 1, get_blocks at 1.
  unfold bind at 1, lift at 1.
  destruct (map_result to_dict (_blocks st)) as [reprs|x] eqn:Hm.
  - intros H. apply bind_inv in H.
    destruct H as [[t [st1 [H1 H]]]|[x [H1 ->]]].
    + pose proof (title_frame _ _ _ H1) as [Hb [Hs [Hp _]]].
      unfold bind, do_post, ret in H.
      fold (commit_body t reprs) in H.
      destruct (session_post (commit_body t reprs) (server st1))
        as [code srv] eqn:Hpost.
      injection H as <- <-. cbn [_blocks sketch_id posted server].
      repeat split; try assumption.
      exists t, st1, reprs. rewrite Hp, Hpost. repeat split. exact H1.
    + apply title_frame in H1. destruct H1 as [Hb [Hs [Hp _]]].
      repeat split; assumption.
  - intros H. injection H as <- <-. repeat split.
Qed.

(** X13.  [_commit] never changes the block list.  When it returns, the
    blocks all encode and the title accessor returned a title; it has
    posted exactly one body, made of that title and of the
    representations of all the blocks in order, and its result is the
    boolean telling whether the status code the service answered to that
    very body is one of [HTTP_STATUS_CODE_20X].  When it raises, it has
    posted nothing. *)
Theorem commit_frame (st st' : Story) (r : result value) :
  _commit st = (r, st') ->
  _blocks st' = _blocks st /\ sketch_id st' = sketch_id st
  /\ match r with
     | Ok v =>
         exists t st1 reprs,
           map_result to_dict (_blocks st) = Ok reprs
           /\ title st = (Ok t, st1)
           /\ posted st' = commit_body t reprs :: posted st
           /\ server st'
              = snd (session_post (commit_body t reprs) (server st1))
           /\ v = VBool (existsb
                           (Z.eqb (fst (session_post (commit_body t reprs)
                                          (server st1))))
                           HTTP_STATUS_CODE_20X)
     | Raise _ => posted st' = posted st
     end.
Proof.
  intros H. destruct (commit_effect st st' r H) as [Hb [Hs Hr]].
  split; [exact Hb|]. split; [exact Hs|]. exact Hr.
Qed.

Lemma map_result_first_raise {A B : Type} (f : A -> result B) (l : list A)
      (e : exn) :
  map_result f l = Raise e ->
  exists pre x post,
    l = pre ++ x :: post
    /\ Forall (fun y => exists d, f y = Ok d) pre
    /\ f x = Raise e.
Proof.
  induction l as [|y l IH]; simpl; [discriminate|].
  destruct (f y) as [d|e'] eqn:Hy.
  - destruct (map_result f l) as [ys|e'']; [discriminate|].
    intros H. injection H as <-.
    destruct (IH eq_refl) as [pre [x [post [-> [Hpre Hx]]]]].
    exists (y :: pre), x, post. repeat split; try assumption.
    constructor; [eauto|assumption].
  - intros H. injection H as <-.
    exists [], y, l. repeat split; [constructor|assumption].
Qed.

(** X14.  A story holding a block that does not encode cannot be
    committed: [_commit] raises the error of the first such block in the
    list, every block before it encoding, and leaves the story and the
    service untouched. *)
Theorem commit_aborts_on_bad_block (st : Story) (b : Block) (e : exn) :
  In b (_blocks st) -> to_dict b = Raise e ->
  exists pre b' post e',
    _blocks st = pre ++ b' :: post
    /\ Forall (fun x => exists d, to_dict x = Ok d) pre
    /\ to_dict b' = Raise e'
    /\ _commit st = (Raise e', st).
Proof.
  intros Hin Hb.
  destruct (map_result_In_raise to_dict _ b e Hin Hb) as [e' He'].
  destruct (map_result_first_raise to_dict _ e' He')
    as [pre [b' [post [Hl [Hpre Hb']]]]].
  exists pre, b', post, e'. repeat split; try assumption.
  unfold _commit, bind, get_blocks, lift. rewrite He'. reflexivity.
Qed.

End StoryBehaviour.

(** ** Python lists *)



Lemma list_insert_at_end {A : Type} (l : list A) (i : Z) (x : A) :
  Z.of_nat (List.length l) <= i -> list_insert l i x = l ++ [x].
Proof.
  intros H. unfold list_insert.
  destruct (i <? 0) eqn:Hi; [apply Z.ltb_lt in Hi; lia|].
  rewrite Z.min_r by lia. rewrite Nat2Z.id.
  rewrite firstn_all, skipn_all. reflexivity.
Qed.





Lemma list_pop_last {A : Type} (pre : list A) (x : A) :
  list_pop (pre ++ [x]) (Z.of_nat (List.length pre)) = Some (x, pre).
Proof.
  unfold list_pop. rewrite length_app. cbn [List.length].
  assert (E0 : (Z.of_nat (List.length pre) <? 0) = false)
    by (apply Z.ltb_ge; lia).
  assert (E1 : (Z.of_nat (List.length pre + 1) <=? Z.of_nat (List.length pre))
               = false) by (apply Z.leb_gt; lia).
  cbv zeta. rewrite E0. cbv iota. rewrite E0, E1. cbn [orb]. rewrite Nat2Z.id.
  rewrite nth_error_app2 by lia. rewrite Nat.sub_diag. cbn [nth_error].
  rewrite firstn_app, Nat.sub_diag, firstn_all. cbn [firstn].
  rewrite app_nil_r. rewrite skipn_all2 by (rewrite length_app; simpl; lia).
  rewrite app_nil_r. reflexivity.
Qed.

Lemma map_result_app {A B : Type} (f : A -> result B) (l1 l2 : list A)
      (r1 r2 : list B) :
  map_result f l1 = Ok r1 -> map_result f l2 = Ok r2 ->
  map_result f (l1 ++ l2) = Ok (r1 ++ r2).
Proof.
  revert r1. induction l1 as [|x l1 IH]; intros r1; simpl.
  - intros H. injection H as <-. auto.
  - destruct (f x) as [y|]; [|discriminate].
    destruct (map_result f l1) as [ys|]; [|discriminate].
    intros H H2. injection H as <-. rewrite (IH ys eq_refl H2). reflexivity.
Qed.

(** ** Adding, moving and removing blocks *)

Section StoryMutators.

Context {imports : Imports}.

(** The common end of [_add_block] and [remove_block]: commit, then
    refresh. *)
Lemma commit_refresh_result (st st' : Story) (r : value) :
  (_commit ;;; refresh ;;; ret VNone)%py st = (Ok r, st') ->
  r = VNone /\ _title st' = VStr "" /\ indices_ok (_blocks st') = true
  /\ exists t reprs,
       map_result to_dict (_blocks st) = Ok reprs
       /\ posted st' = commit_body t reprs :: posted st.
Proof.
  intros H. apply bind_inv in H.
  destruct H as [[c [st1 [H1 H]]]|[x [_ Hx]]]; [|discriminate Hx].
  apply bind_inv in H.
  destruct H as [[u [st2 [H2 H]]]|[x [_ Hx]]]; [|discriminate Hx].
  injection H as <- <-.
  apply commit_effect in H1.
  destruct H1 as [_ [_ [t [st0 [reprs [Hm [_ [Hp _]]]]]]]].
  apply refresh_effect in H2. destruct H2 as [Ht [Hp2 [_ Hi]]].
  repeat split; try assumption.
  exists t, reprs. split; [assumption|]. rewrite Hp2. exact Hp.
Qed.

(** X15.  When [add_text] or [add_view] returns, the story has posted
    exactly one body; its title is unloaded again and its blocks,
    reloaded from the service, carry their positions as indices. *)
Theorem add_block_success (st st' : Story) (payload : pyobj) (i : Z)
        (r : value) :
  add_text payload i st = (Ok r, st') \/ add_view payload i st = (Ok r, st') ->
  _title st' = VStr "" /\ indices_ok (_blocks st') = true
  /\ exists body, posted st' = body :: posted st.
Proof.
  assert (Hadd : forall b j,
            _add_block b j st = (Ok r, st') ->
            _title st' = VStr "" /\ indices_ok (_blocks st') = true
            /\ exists body, posted st' = body :: posted st).
  { intros b j H. unfold _add_block, bind at 1, get_blocks at 1 in H.
    unfold bind at 1, set_blocks at 1 in H.
    apply commit_refresh_result in H.
    destruct H as [_ [Ht [Hi [t [reprs [_ Hp]]]]]].
    repeat split; try assumption. eexists. exact Hp. }
  intros [H|H].
  - unfold add_text, bind at 1, get_blocks at 1 in H. eapply Hadd, H.
  - unfold add_view in H.
    destruct (hasattr payload "id"); [|discriminate H].
    destruct (hasattr payload "name"); [|discriminate H].
    unfold negb, bind at 1, get_blocks at 1 in H. eapply Hadd, H.
Qed.

(** X16.  [add_view] with an object that lacks an [id] or a [name]
    raises [TypeError] before touching the story: no block is inserted
    and nothing is posted. *)
Theorem add_view_malformed (st : Story) (view_obj : pyobj) (i : Z) :
  hasattr view_obj "id" = false \/ hasattr view_obj "name" = false ->
  add_view view_obj i st
  = (Raise (TypeError "View object is not correctly formed."), st).
Proof.
  intros [H|H]; unfold add_view; rewrite H; simpl.
  - reflexivity.
  - destruct (hasattr view_obj "id"); reflexivity.
Qed.

(** X17.  With no index given, [add_text] appends: on a story whose
    title is cached and whose blocks all encode, the body it posts holds
    the representations of all the blocks followed by that of the new
    text, whatever the refresh that follows does. *)
Theorem add_text_appends (st : Story) (s : string) (reprs : list value) :
  truthy (_title st) = true ->
  map_result to_dict (_blocks st) = Ok reprs ->
  s <> "" ->
  posted (snd (add_text (PVal (VStr s)) (-1) st))
  = commit_body (_title st)
      (reprs ++ [VDict (dict_set "content" (VStr s) _get_base)])
    :: posted st.
Proof.
  intros Ht Hm Hs.
  unfold add_text, bind at 1, get_blocks at 1.
  change (-1 =? -1) with true. cbv iota.
  unfold _add_block, bind at 1, get_blocks at 1.
  unfold bind at 1, set_blocks at 1.
  rewrite list_insert_at_end by lia.
  set (tb := feed (new_TextBlock (Z.of_nat (List.length (_blocks st))))
               (PVal (VStr s))).
  assert (Htb : map_result to_dict [tb]
                = Ok [VDict (dict_set "content" (VStr s) _get_base)]).
  { unfold tb, map_result, feed, new_TextBlock, to_dict, obj_truthy.
    rewrite (str_truthy s Hs). reflexivity. }
  pose proof (map_result_app to_dict _ _ _ _ Hm Htb) as Happ.
  unfold bind at 1, _commit, bind at 1, get_blocks at 1.
  cbn [_blocks]. unfold bind at 1, lift at 1. rewrite Happ.
  unfold bind at 1. rewrite title_cached by exact Ht.
  cbn [_title]. unfold bind at 1, do_post.
  cbn [server _title _blocks sketch_id posted].
  destruct (session_post _ (server st)) as [code srv].
  unfold ret at 1.
  match goal with
  | |- context [bind refresh ?k ?s] =>
      unfold bind at 1; destruct (refresh s) as [[u|x] st3] eqn:Hr
  end; apply refresh_effect in Hr; destruct Hr as [_ [Hp _]];
    unfold ret; cbn [snd]; rewrite Hp; reflexivity.
Qed.

(** X18.  When [remove_block] returns, it has posted exactly one body,
    holding the representations of the blocks without the one removed;
    the title is unloaded again and the blocks, reloaded from the
    service, carry their positions as indices. *)
Theorem remove_block_success (st st' : Story) (i : Z) (r : value) :
  remove_block i st = (Ok r, st') ->
  r = VNone /\ _title st' = VStr "" /\ indices_ok (_blocks st') = true
  /\ exists x rest t reprs,
       list_pop (_blocks st) i = Some (x, rest)
       /\ map_result to_dict rest = Ok reprs
       /\ posted st' = commit_body t reprs :: posted st.
Proof.
  unfold remove_block, bind at 1, get_blocks at 1.
  destruct (list_pop (_blocks st) i) as [[x rest]|] eqn:Hpop; [|discriminate].
  unfold bind at 1, set_blocks at 1. intros H.
  apply commit_refresh_result in H.
  destruct H as [Hr [Ht [Hi [t [reprs [Hm Hp]]]]]].
  repeat split; try assumption.
  exists x, rest, t, reprs. repeat split; assumption.
Qed.


Lemma move_to_blocks (st : Story) (block old : Block) (rest : list Block)
      (new_index : Z) (d_old d_new : value) :
  0 <= new_index ->
  list_pop (_blocks st) (index block) = Some (old, rest) ->
  data old = Ok d_old ->
  data block = Ok d_new ->
  py_eq d_old d_new = true ->
  _blocks (snd (move_to block new_index st)) = list_insert rest new_index block.
Proof.
  intros Hn Hpop Hold Hnew Heq.
  unfold move_to. apply Z.ltb_ge in Hn. rewrite Hn.
  unfold bind at 1, get_blocks at 1. rewrite Hpop.
  unfold bind at 1, set_blocks at 1.
  unfold bind at 1, lift at 1. rewrite Hold.
  unfold bind at 1, lift at 1. rewrite Hnew, Heq. cbn [negb].
  unfold bind at 1, get_blocks at 1. cbn [_blocks].
  unfold bind at 1, set_blocks at 1.
  cbn [_title _blocks sketch_id server posted].
  match goal with
  | |- context [bind _commit ?k ?s] =>
      unfold bind at 1; destruct (_commit s) as [[c|x] st2] eqn:Hc
  end; apply commit_effect in Hc; destruct Hc as [Hc _]; exact Hc.
Qed.


(** X21.  [move_up] on a block whose index is 0 (or negative) does
    nothing: the story is unchanged and nothing is posted; the block
    does not wrap around to the end. *)
Theorem move_up_at_top (st : Story) (b : Block) :
  index b <= 0 -> move_up b st = (Ok VNone, st).
Proof.
  intros H. unfold move_up, move_to.
  assert (E : (index b - 1 <? 0) = true) by (apply Z.ltb_lt; lia).
  rewrite E. reflexivity.
Qed.

(** X22.  [move_down] on the last block of a story, when that block
    encodes to a representation equal to itself, leaves the blocks in
    the order they had; the whole story is committed all the same when
    the title is cached and every block encodes. *)
Theorem move_down_at_bottom (st : Story) (pre : list Block) (b : Block)
        (d : value) :
  _blocks st = pre ++ [b] ->
  index b = Z.of_nat (List.length pre) ->
  data b = Ok d ->
  py_eq d d = true ->
  _blocks (snd (move_down b st)) = pre ++ [b]
  /\ (truthy (_title st) = true ->
      forall reprs, map_result to_dict (pre ++ [b]) = Ok reprs ->
      posted (snd (move_down b st))
      = commit_body (_title st) reprs :: posted st).
Proof.
  intros Hb Hi Hd Heq.
  assert (Hpop : list_pop (_blocks st) (index b) = Some (b, pre))
    by (rewrite Hb, Hi; apply list_pop_last).
  assert (Hins : list_insert pre (index b + 1) b = pre ++ [b])
    by (apply list_insert_at_end; lia).
  split.
  - unfold move_down.
    rewrite (move_to_blocks st b b pre (index b + 1) d d
               ltac:(lia) Hpop Hd Hd Heq).
    exact Hins.
  - intros Ht reprs Hm. unfold move_down, move_to.
    assert (E : (index b + 1 <? 0) = false) by (apply Z.ltb_ge; lia).
    rewrite E. unfold bind at 1, get_blocks at 1. rewrite Hpop.
    unfold bind at 1, set_blocks at 1.
    unfold bind at 1, lift at 1. rewrite Hd.
    unfold bind at 1, lift at 1. rewrite Heq. cbn [negb].
    unfold bind at 1, get_blocks at 1. cbn [_blocks].
    unfold bind at 1, set_blocks at 1.
    cbn [_title _blocks sketch_id server posted]. rewrite Hins.
    unfold bind at 1, _commit, bind at 1, get_blocks at 1.
    cbn [_blocks]. unfold bind at 1, lift at 1. rewrite Hm.
    unfold bind at 1. rewrite title_cached by exact Ht.
    cbn [_title]. unfold bind at 1, do_post.
    cbn [server _title _blocks sketch_id posted].
    destruct (session_post _ (server st)) as [code srv]. reflexivity.
Qed.

End StoryMutators.

(** ** The story as text *)

Section StoryText.

Context {imports : Imports}.

Variable explore_to_string : pyobj -> Server -> string * Server.

(** X23.  On a loaded story whose title is cached and whose blocks all
    encode, [content] returns, without contacting the service, the very
    JSON text that [_commit] posts as the [content] of its body. *)
Theorem content_matches_commit (st : Story) (reprs : list value) :
  _blocks st <> [] ->
  truthy (_title st) = true ->
  map_result to_dict (_blocks st) = Ok reprs ->
  exists c,
    content st = (Ok (VStr c), st)
    /\ posted (snd (_commit st))
       = VDict [("title", _title st); ("content", VStr c)] :: posted st.
Proof.
  intros Hne Ht Hm. exists (json_dumps (VList reprs)). split.
  - unfold content, bind at 1. rewrite (blocks_cached st Hne).
    unfold bind, lift, ret. rewrite Hm. reflexivity.
  - unfold _commit, bind at 1, get_blocks at 1.
    unfold bind at 1, lift at 1. rewrite Hm.
    unfold bind at 1. rewrite title_cached by exact Ht.
    unfold bind at 1, do_post.
    destruct (session_post _ (server st)) as [code srv]. reflexivity.
Qed.

Lemma blocks_load_wire (st : Story) (data : value) (srv : Server)
      (o : value) (objs : list value) (s : string) (entries : list value) :
  _blocks st = [] ->
  lazyload_data false (server st) = (data, srv) ->
  py_get data "objects" VNone = Ok (VList (o :: objs)) ->
  py_get o "content" (VList []) = Ok (VStr s) ->
  json_loads s = Ok (VList entries) ->
  forallb wire_entry entries = true ->
  blocks st
  = (Ok (decode_from_spec (sketch_id st) 0 entries),
     mkStory (_title st) (decode_from_spec (sketch_id st) 0 entries)
       (sketch_id st) srv (posted st)).
Proof.
  intros Hb Hload Hobj Hcontent Hjson Hwire.
  unfold blocks, bind, get_blocks, do_lazyload, lift. rewrite Hb.
  unfold is_nil. cbv beta iota. rewrite Hload, Hobj.
  cbn [truthy is_nil negb py_first]. cbv beta iota. rewrite Hcontent.
  cbn [json_loads_obj]. rewrite Hjson. cbn [py_iter]. cbv beta iota.
  rewrite (load_blocks_wire entries 0 _ Hwire). simpl. rewrite Hb.
  reflexivity.
Qed.

Lemma text_entries_wire (strs : list string) :
  Forall (fun t => t <> "") strs ->
  forallb wire_entry
    (map (fun t => VDict (dict_set "content" (VStr t) _get_base)) strs)
  = true.
Proof.
  induction 1 as [|t strs Ht _ IH]; [reflexivity|].
  cbn [map forallb]. rewrite IH, andb_true_r.
  unfold wire_entry, field. cbn [dict_set _get_base assoc String.eqb Ascii.eqb
    Bool.eqb].
  rewrite (str_truthy t Ht). reflexivity.
Qed.

Lemma render_text_entries (sid : Z) (strs : list string) :
  Forall (fun t => t <> "") strs ->
  forall (i : Z) (st : Story),
    render explore_to_string
      (decode_from_spec sid i
         (map (fun t => VDict (dict_set "content" (VStr t) _get_base)) strs))
      st
    = (Ok (map (fun t => PVal (VStr t)) strs), st).
Proof.
  induction 1 as [|t strs Ht _ IH]; intros i st; [reflexivity|].
  cbn [map decode_from_spec].
  assert (E : decode_entry_spec sid i
                (VDict (dict_set "content" (VStr t) _get_base))
              = TextBlock i (PVal (VStr t))).
  { unfold decode_entry_spec, field.
    cbn [dict_set _get_base assoc String.eqb Ascii.eqb Bool.eqb].
    rewrite (str_truthy t Ht). reflexivity. }
  rewrite E. cbn [render]. unfold bind at 1, ret at 1.
  unfold bind at 1. rewrite IH. unfold ret, block_text, _data, obj_truthy.
  rewrite (str_truthy t Ht). reflexivity.
Qed.

Lemma str_items_strings (strs : list string) :
  str_items (map (fun t => PVal (VStr t)) strs) = Ok strs.
Proof.
  induction strs as [|t strs IH]; [reflexivity|].
  cbn [map str_items]. rewrite IH. reflexivity.
Qed.

(** X24.  For a story that the service holds as the representations of
    text blocks with non-empty texts, at least one, [to_string] returns
    these texts joined by newlines, whatever blocks and title the story
    object held before: it renders what the service returns, not the
    local blocks. *)
Theorem to_string_text_story (st : Story) (d0 data : value)
        (srv0 srv : Server) (o : value) (objs : list value) (s : string)
        (strs : list string) :
  lazyload_data true (server st) = (d0, srv0) ->
  lazyload_data false srv0 = (data, srv) ->
  py_get data "objects" VNone = Ok (VList (o :: objs)) ->
  py_get o "content" (VList []) = Ok (VStr s) ->
  json_loads s
  = Ok (VList (map (fun t => VDict (dict_set "content" (VStr t) _get_base))
                 strs)) ->
  strs <> [] ->
  Forall (fun t => t <> "") strs ->
  fst (to_string explore_to_string st) = Ok (String.concat newline strs).
Proof.
  intros Hl0 Hl Hobj Hc Hj Hne Hall.
  pose proof (text_entries_wire strs Hall) as Hw.
  unfold to_string, bind at 1, refresh.
  unfold bind at 1, set_title at 1.
  unfold bind at 1, set_blocks at 1.
  unfold bind at 1, do_lazyload.
  cbn [_title _blocks sketch_id server posted]. rewrite Hl0.
  unfold bind at 1.
  match goal with
  | |- context [blocks ?s0] =>
      rewrite (blocks_load_wire s0 data srv o objs s _ eq_refl Hl Hobj Hc Hj Hw)
  end.
  unfold ret at 1. unfold bind at 1.
  cbn [_title _blocks sketch_id server posted].
  rewrite blocks_cached
    by (cbn [_blocks]; destruct strs; [contradiction|discriminate]).
  cbn [_blocks]. unfold bind at 1.
  rewrite (render_text_entries _ strs Hall).
  unfold lift, join_lines. rewrite str_items_strings. reflexivity.
Qed.

End StoryText.

(** ** The further properties on concrete stories *)

Lemma title_is_cached_witness :
  title (imports := Demo.demo)
    (snd (title (imports := Demo.demo) (Demo.fresh_story (VStr "T") [] 200)))
  = (Ok (VStr "T"),
     snd (title (imports := Demo.demo) (Demo.fresh_story (VStr "T") [] 200))).
Proof.
  apply (@title_is_cached Demo.demo (Demo.fresh_story (VStr "T") [] 200)).
  - vm_compute. reflexivity.
  - reflexivity.
Defined.

Lemma blocks_is_cached_witness :
  let st := Demo.fresh_story (VStr "T")
              [Demo.repr Demo.text_a; Demo.repr Demo.text_b] 200 in
  blocks (imports := Demo.demo) (snd (blocks (imports := Demo.demo) st))
  = (Ok [Demo.text_a; Demo.text_b], snd (blocks (imports := Demo.demo) st)).
Proof.
  intros st.
  apply (@blocks_is_cached Demo.demo st).
  - vm_compute. reflexivity.
  - discriminate.
Defined.

Lemma blocks_without_content_key_witness :
  blocks (imports := Demo.demo) Cases.no_content_story
  = (Raise (TypeError
              "the JSON object must be str, bytes or bytearray, not list"),
     Cases.no_content_story).
Proof.
  exact (@blocks_without_content_key Demo.demo Cases.no_content_story
           (VDict [("objects", VList [VDict [("title", VStr "T")]])])
           (Demo.mkService [VDict [("title", VStr "T")]] 200)
           [("title", VStr "T")] [] eq_refl eq_refl eq_refl eq_refl).
Defined.

Lemma blocks_partial_load_witness :
  let st' :=
    @mkStory Cases.broken_imports (VStr "") [Demo.text_a] 1
      (server Cases.broken_story) [] in
  blocks Cases.broken_story = (Raise (TypeError "View not defined"), st')
  /\ ([Demo.repr Demo.text_a] <> [] -> blocks st' = (Ok [Demo.text_a], st')).
Proof.
  apply (@blocks_partial_load Cases.broken_imports Cases.broken_story
           (VDict [("objects",
                    VList [VDict [("title", VStr "T");
                                  ("content",
                                   VStr (Demo.dumps (VList Cases.broken_raw)))]])])
           (server Cases.broken_story)
           (VDict [("title", VStr "T");
                   ("content", VStr (Demo.dumps (VList Cases.broken_raw)))])
           [] (Demo.dumps (VList Cases.broken_raw))
           [Demo.repr Demo.text_a] [] _get_base []).
  - reflexivity.
  - reflexivity.
  - reflexivity.
  - reflexivity.
  - vm_compute. reflexivity.
  - reflexivity.
  - reflexivity.
  - reflexivity.
  - reflexivity.
Defined.

Lemma blocks_load_indices_witness :
  indices_ok (_blocks (snd (blocks Cases.broken_story))) = true.
Proof.
  apply (@blocks_load_indices Cases.broken_imports Cases.broken_story
           (snd (blocks Cases.broken_story))
           (Raise (TypeError "View not defined"))).
  - reflexivity.
  - vm_compute. reflexivity.
Defined.

Lemma refresh_frame_witness :
  let st' := snd (refresh (imports := Demo.demo) Cases.two_texts) in
  _title st' = VStr "" /\ posted st' = posted Cases.two_texts
  /\ sketch_id st' = sketch_id Cases.two_texts
  /\ indices_ok (_blocks st') = true.
Proof.
  intros st'.
  apply (@refresh_frame Demo.demo Cases.two_texts st' (Ok tt)).
  vm_compute. reflexivity.
Defined.

Lemma commit_frame_witness :
  let st' := snd (_commit (imports := Demo.demo) Cases.two_texts) in
  _blocks st' = _blocks Cases.two_texts
  /\ sketch_id st' = sketch_id Cases.two_texts
  /\ exists t st1 reprs,
       map_result to_dict (_blocks Cases.two_texts) = Ok reprs
       /\ title (imports := Demo.demo) Cases.two_texts = (Ok t, st1)
       /\ posted st'
          = commit_body (imports := Demo.demo) t reprs :: posted Cases.two_texts
       /\ server st'
          = snd (session_post (Imports := Demo.demo)
                   (commit_body (imports := Demo.demo) t reprs) (server st1))
       /\ VBool true
          = VBool (existsb
                     (Z.eqb (fst (session_post (Imports := Demo.demo)
                                    (commit_body (imports := Demo.demo) t reprs)
                                    (server st1))))
                     (HTTP_STATUS_CODE_20X (Imports := Demo.demo))).
Proof.
  intros st'.
  apply (@commit_frame Demo.demo Cases.two_texts st' (Ok (VBool true))).
  vm_compute. reflexivity.
Defined.

Lemma commit_aborts_on_bad_block_witness :
  exists pre b' post e',
    _blocks Cases.unfed_second = pre ++ b' :: post
    /\ Forall (fun x => exists d, to_dict x = Ok d) pre
    /\ to_dict b' = Raise e'
    /\ _commit (imports := Demo.demo) Cases.unfed_second
       = (Raise e', Cases.unfed_second).
Proof.
  apply (@commit_aborts_on_bad_block Demo.demo Cases.unfed_second
           (new_ViewBlock 1)
           (ValueError "No data has been fed to the block.")).
  - right. left. reflexivity.
  - reflexivity.
Defined.

Lemma add_block_success_witness :
  let st' := snd (add_text (imports := Demo.demo) (PVal (VStr "hello")) (-1)
                    Cases.no_blocks) in
  _title st' = VStr "" /\ indices_ok (_blocks st') = true
  /\ exists body, posted st' = body :: posted Cases.no_blocks.
Proof.
  intros st'.
  apply (@add_block_success Demo.demo Cases.no_blocks st'
           (PVal (VStr "hello")) (-1) VNone).
  left. vm_compute. reflexivity.
Defined.

Lemma add_view_malformed_witness :
  add_view (imports := Demo.demo) (PInst [("id", VInt 7)]) (-1) Cases.two_texts
  = (Raise (TypeError "View object is not correctly formed."), Cases.two_texts).
Proof.
  apply (@add_view_malformed Demo.demo Cases.two_texts
           (PInst [("id", VInt 7)]) (-1)).
  right. reflexivity.
Defined.

Lemma add_text_appends_witness :
  posted (snd (add_text (imports := Demo.demo) (PVal (VStr "b")) (-1)
                 (Demo.loaded_story (VStr "T") [Demo.text_a] 200)))
  = [commit_body (imports := Demo.demo) (VStr "T")
       ([Demo.repr Demo.text_a]
        ++ [VDict (dict_set "content" (VStr "b") _get_base)])].
Proof.
  apply (@add_text_appends Demo.demo
           (Demo.loaded_story (VStr "T") [Demo.text_a] 200) "b"
           [Demo.repr Demo.text_a]).
  - reflexivity.
  - reflexivity.
  - discriminate.
Defined.

Lemma remove_block_success_witness :
  let st' := snd (remove_block (imports := Demo.demo) 0 Cases.two_texts) in
  VNone = VNone /\ _title st' = VStr "" /\ indices_ok (_blocks st') = true
  /\ exists x rest t reprs,
       list_pop (_blocks Cases.two_texts) 0 = Some (x, rest)
       /\ map_result to_dict rest = Ok reprs
       /\ posted st'
          = commit_body (imports := Demo.demo) t reprs :: posted Cases.two_texts.
Proof.
  intros st'.
  apply (@remove_block_success Demo.demo Cases.two_texts st' 0 VNone).
  vm_compute. reflexivity.
Defined.



Lemma move_up_at_top_witness :
  move_up (imports := Demo.demo) Demo.text_a Cases.two_texts
  = (Ok VNone, Cases.two_texts).
Proof.
  apply (@move_up_at_top Demo.demo Cases.two_texts Demo.text_a).
  vm_compute. discriminate.
Defined.

Lemma move_down_at_bottom_witness :
  _blocks (snd (move_down (imports := Demo.demo) Demo.text_b Cases.two_texts))
  = [Demo.text_a] ++ [Demo.text_b]
  /\ (truthy (_title Cases.two_texts) = true ->
      forall reprs,
        map_result to_dict ([Demo.text_a] ++ [Demo.text_b]) = Ok reprs ->
        posted (snd (move_down (imports := Demo.demo) Demo.text_b
                       Cases.two_texts))
        = commit_body (imports := Demo.demo) (_title Cases.two_texts) reprs
          :: posted Cases.two_texts).
Proof.
  apply (@move_down_at_bottom Demo.demo Cases.two_texts [Demo.text_a]
           Demo.text_b (Demo.repr Demo.text_b)).
  - reflexivity.
  - reflexivity.
  - reflexivity.
  - reflexivity.
Defined.

Lemma content_matches_commit_witness :
  exists c,
    content (imports := Demo.demo) Cases.two_texts = (Ok (VStr c), Cases.two_texts)
    /\ posted (snd (_commit (imports := Demo.demo) Cases.two_texts))
       = VDict [("title", _title Cases.two_texts); ("content", VStr c)]
         :: posted Cases.two_texts.
Proof.
  apply (@content_matches_commit Demo.demo Cases.two_texts
           [Demo.repr Demo.text_a; Demo.repr Demo.text_b]).
  - discriminate.
  - reflexivity.
  - reflexivity.
Defined.

Lemma to_string_text_story_witness :
  fst (to_string (imports := Demo.demo) Cases.no_events
         (Demo.loaded_story (VStr "T") [Demo.text_b; Demo.text_a] 200))
  = Ok (String.concat newline ["b"; "a"]).
Proof.
  apply (@to_string_text_story Demo.demo Cases.no_events
           (Demo.loaded_story (VStr "T") [Demo.text_b; Demo.text_a] 200)
           (VDict [("objects",
                    VList [VDict [("title", VStr "T");
                                  ("content",
                                   VStr (Demo.dumps
                                           (VList [Demo.repr Demo.text_b;
                                                   Demo.repr Demo.text_a])))]])])
           (VDict [("objects",
                    VList [VDict [("title", VStr "T");
                                  ("content",
                                   VStr (Demo.dumps
                                           (VList [Demo.repr Demo.text_b;
                                                   Demo.repr Demo.text_a])))]])])
           (Demo.mkService
              [VDict [("title", VStr "T");
                      ("content",
                       VStr (Demo.dumps
                               (VList [Demo.repr Demo.text_b;
                                       Demo.repr Demo.text_a])))]] 200)
           (Demo.mkService
              [VDict [("title", VStr "T");
                      ("content",
                       VStr (Demo.dumps
                               (VList [Demo.repr Demo.text_b;
                                       Demo.repr Demo.text_a])))]] 200)
           (VDict [("title", VStr "T");
                   ("content",
                    VStr (Demo.dumps
                            (VList [Demo.repr Demo.text_b;
                                    Demo.repr Demo.text_a])))])
           [] (Demo.dumps (VList [Demo.repr Demo.text_b; Demo.repr Demo.text_a]))
           ["b"; "a"]).
  - reflexivity.
  - reflexivity.
  - reflexivity.
  - reflexivity.
  - vm_compute. reflexivity.
  - discriminate.
  - repeat constructor; discriminate.
Defined.

(** ** The consistency guard of [move_to] *)




